(** * AnySDK: exposing the methods of an SDK client as CRUD-filtered tools

    A shallow embedding of
    [libs/community/langchain_community/utilities/anysdk.py]:
    the [CrudControls] policy, the [AnySDKTool] wrapper with its [_run]
    method, and [AnySdkWrapper._build_operations].

    Python values are modelled by the inductive [pyval]; exceptions by the
    error monad [outcome].  A Python string is modelled by [string]: the
    sequence of its code points, each of them below 256 (Basic Latin and
    Latin-1), so that the character [ascii_of_nat n] stands for the code
    point [n].  Strings with a code point from 256 on are outside the
    model. *)

From Stdlib Require Import ZArith Ascii String List Lia.
From Stdlib Require Import Decimal DecimalFacts DecimalPos DecimalZ DecimalString.
From stdpp Require Import base option list gmap strings fin_maps.

Local Open Scope string_scope.
Local Open Scope list_scope.
Set Warnings "-register-all".

(** ** Python strings *)

Module PyString.

(** [c.lower()] on one character.  Below 256 the letters with a lower
    case form are the capitals [A]..[Z] (65..90) and the Latin-1 capitals
    192..214 and 216..222 (215 is the multiplication sign); each of them
    moves up by 32.  Every other code point below 256 is left as it is,
    the sharp s (223) and the micro sign (181) among them. *)
Definition lower_char (c : ascii) : ascii :=
  let n := nat_of_ascii c in
  if ((65 <=? n)%nat && (n <=? 90)%nat)
     || ((192 <=? n)%nat && (n <=? 214)%nat)
     || ((216 <=? n)%nat && (n <=? 222)%nat)
  then ascii_of_nat (n + 32) else c.

(** [s.lower()]: on code points below 256 the method works one character
    at a time (the rules that look at the neighbours of a character, or
    that lengthen the string, concern code points from 304 on). *)
Fixpoint lower (s : string) : string :=
  match s with
  | EmptyString => EmptyString
  | String c rest => String (lower_char c) (lower rest)
  end.

(** [s.startswith(p)] *)
Fixpoint startswith (s p : string) {struct p} : bool :=
  match p, s with
  | EmptyString, _ => true
  | String _ _, EmptyString => false
  | String a p', String b s' => if Ascii.eqb a b then startswith s' p' else false
  end.

(** [needle in hay] *)
Fixpoint contains (needle hay : string) : bool :=
  startswith hay needle ||
  match hay with
  | EmptyString => false
  | String _ rest => contains needle rest
  end.

(** [s.split(sep)] for a one-character separator. *)
Fixpoint split (sep : ascii) (s : string) : list string :=
  match s with
  | EmptyString => [EmptyString]
  | String c rest =>
      if Ascii.eqb c sep then EmptyString :: split sep rest
      else match split sep rest with
           | [] => [String c EmptyString]
           | w :: ws => String c w :: ws
           end
  end.

End PyString.

(** ** Python values and exceptions *)

(** The values that flow through the tool: arguments, results, and the
    configuration of the policy.  A dict is the list of its pairs in
    insertion order, its keys being strings.  [PyObj repr] is an object of
    a class the JSON encoder does not know, given by what [str()] answers
    for it.  Floating-point numbers and dicts with a key that is not a
    string are not among these values. *)
Inductive pyval : Type :=
| PyNone
| PyBool (b : bool)
| PyInt (z : Z)
| PyStr (s : string)
| PyList (l : list pyval)
| PyTuple (l : list pyval)
| PyDict (d : list (string * pyval))
| PyObj (repr : string).

(** Exception classes; [OtherError cls] is any class not named here. *)
Inductive exn : Type :=
| AttributeError
| KeyError
| TypeError
| ValueError
| ValidationError
| OtherError (cls : string).

Inductive outcome (A : Type) : Type :=
| Return (a : A)
| Raise (e : exn).
Arguments Return {A} a.
Arguments Raise {A} e.

#[global] Instance outcome_ret : MRet outcome := fun _ a => Return a.
#[global] Instance outcome_bind : MBind outcome := fun _ _ k m =>
  match m with
  | Return a => k a
  | Raise e => Raise e
  end.

(** [try: body except cls: handler] *)
Definition try_except {A} (body : outcome A) (caught : exn -> bool)
    (handler : outcome A) : outcome A :=
  match body with
  | Return a => Return a
  | Raise e => if caught e then handler else Raise e
  end.

Definition is_AttributeError (e : exn) : bool :=
  match e with AttributeError => true | _ => false end.

(** [bool(v)] *)
Definition truthy (v : pyval) : bool :=
  match v with
  | PyNone => false
  | PyBool b => b
  | PyInt z => negb (z =? 0)%Z
  | PyStr s => negb (String.eqb s "")
  | PyList l => match l with [] => false | _ => true end
  | PyTuple l => match l with [] => false | _ => true end
  | PyDict d => match d with [] => false | _ => true end
  | PyObj _ => true
  end.

(** ** The SDK client *)

(** An attribute of the client object: its [__doc__] and, when it is
    callable, what a call with keyword arguments does. *)
Record attribute : Type := {
  attr_doc : option string;
  attr_call : option (list (string * pyval) -> outcome pyval)
}.

(** The client object is its attribute listing, in [dir()] order. *)
Definition sdk_object : Type := list (string * attribute).

Definition dir (obj : sdk_object) : list string := map fst obj.

Fixpoint find_attr (obj : sdk_object) (name : string) : option attribute :=
  match obj with
  | [] => None
  | (n, a) :: rest => if String.eqb n name then Some a else find_attr rest name
  end.

Definition getattr (obj : sdk_object) (name : string) : outcome attribute :=
  match find_attr obj name with
  | Some a => Return a
  | None => Raise AttributeError
  end.

Definition callable (a : attribute) : bool :=
  match attr_call a with Some _ => true | None => false end.

(** [handle[key]] on the mapping that carries the client. *)
Definition subscript (handle : gmap string sdk_object) (key : string)
    : outcome sdk_object :=
  match handle !! key with
  | Some obj => Return obj
  | None => Raise KeyError
  end.

(** ** CrudControls *)

Definition ANYSDK_CRUD_CONTROLS_CREATE : bool := false.
Definition ANYSDK_CRUD_CONTROLS_READ : bool := true.
Definition ANYSDK_CRUD_CONTROLS_UPDATE : bool := false.
Definition ANYSDK_CRUD_CONTROLS_DELETE : bool := false.

Definition ANYSDK_CRUD_CONTROLS_CREATE_LIST : string := "create".
Definition ANYSDK_CRUD_CONTROLS_READ_LIST : string := "get,read,list".
Definition ANYSDK_CRUD_CONTROLS_UPDATE_LIST : string := "update,put,post".
Definition ANYSDK_CRUD_CONTROLS_DELETE_LIST : string := "delete,destroy,remove".

(** Modelled from the spec: [langchain_core.utils.get_from_dict_or_env] is
    imported by the source and not part of it.  The spec of the policy
    says that a field of the configuration that is missing resolves
    through the environment variable of that name and then through the
    built-in default.  A field counts as supplied when it is present with a
    true value, and an environment variable when it is set and not empty;
    with no default either, the lookup raises [ValueError]. *)
Definition get_from_dict_or_env (environ : gmap string string)
    (data : gmap string pyval) (key env_key : string) (default : pyval)
    : outcome pyval :=
  let from_env :=
    match environ !! env_key with
    | Some (String c s) => Return (PyStr (String c s))
    | _ => match default with PyNone => Raise ValueError | d => Return d end
    end in
  match data !! key with
  | Some v => if truthy v then Return v else from_env
  | None => from_env
  end.

(** [v.split(",")]: only a string has the method. *)
Definition split_comma (v : pyval) : outcome pyval :=
  match v with
  | PyStr s => Return (PyList (map PyStr (PyString.split "," s)))
  | _ => Raise AttributeError
  end.

Module CrudControls.

(** The policy object as [_build_operations] reads it, after validation:
    the gates are booleans, the keyword lists are lists of strings
    ([None] where the attribute is [None], which the loop tests for). *)
Record t : Type := {
  create : bool;
  create_list : option (list string);
  read : bool;
  read_list : option (list string);
  update : bool;
  update_list : option (list string);
  delete : bool;
  delete_list : option (list string)
}.

(** The declared defaults of the eight fields. *)
Definition field_defaults : gmap string pyval :=
  list_to_map
    [("create", PyBool ANYSDK_CRUD_CONTROLS_CREATE); ("create_list", PyNone);
     ("read", PyBool ANYSDK_CRUD_CONTROLS_READ); ("read_list", PyNone);
     ("update", PyBool ANYSDK_CRUD_CONTROLS_UPDATE); ("update_list", PyNone);
     ("delete", PyBool ANYSDK_CRUD_CONTROLS_DELETE); ("delete_list", PyNone)].

Section Validator.
(** The lookup of one field: configuration, environment, default. *)
Variable lookup_field :
  gmap string pyval -> string -> string -> pyval -> outcome pyval.

Definition validate_environment (values : gmap string pyval)
    : outcome (gmap string pyval) :=
  create ← lookup_field values "create" "ANYSDK_CRUD_CONTROLS_CREATE"
             (PyBool ANYSDK_CRUD_CONTROLS_CREATE);
  let values := <["create" := PyBool (truthy create)]> values in
  create_list ← lookup_field values "create_list"
             "ANYSDK_CRUD_CONTROLS_CREATE_LIST"
             (PyStr ANYSDK_CRUD_CONTROLS_CREATE_LIST);
  create_words ← split_comma create_list;
  let values := <["create_list" := create_words]> values in
  read ← lookup_field values "read" "ANYSDK_CRUD_CONTROLS_READ"
             (PyBool ANYSDK_CRUD_CONTROLS_READ);
  let values := <["read" := PyBool (truthy read)]> values in
  read_list ← lookup_field values "read_list"
             "ANYSDK_CRUD_CONTROLS_READ_LIST"
             (PyStr ANYSDK_CRUD_CONTROLS_READ_LIST);
  read_words ← split_comma read_list;
  let values := <["read_list" := read_words]> values in
  update ← lookup_field values "update" "ANYSDK_CRUD_CONTROLS_UPDATE"
             (PyBool ANYSDK_CRUD_CONTROLS_UPDATE);
  let values := <["update" := PyBool (truthy update)]> values in
  update_list ← lookup_field values "update_list"
             "ANYSDK_CRUD_CONTROLS_UPDATE_LIST"
             (PyStr ANYSDK_CRUD_CONTROLS_UPDATE_LIST);
  update_words ← split_comma update_list;
  let values := <["update_list" := update_words]> values in
  delete ← lookup_field values "delete" "ANYSDK_CRUD_CONTROLS_DELETE"
             (PyBool ANYSDK_CRUD_CONTROLS_DELETE);
  let values := <["delete" := PyBool (truthy delete)]> values in
  delete_list ← lookup_field values "delete_list"
             "ANYSDK_CRUD_CONTROLS_DELETE_LIST"
             (PyStr ANYSDK_CRUD_CONTROLS_DELETE_LIST);
  delete_words ← split_comma delete_list;
  let values := <["delete_list" := delete_words]> values in
  mret values.
End Validator.

(** Reading the validated mapping back as the fields of the object. *)
Definition as_gate (v : option pyval) : option bool :=
  match v with Some (PyBool b) => Some b | _ => None end.

Fixpoint as_strings (l : list pyval) : option (list string) :=
  match l with
  | [] => Some []
  | PyStr s :: rest => cons s <$> as_strings rest
  | _ :: _ => None
  end.

Definition as_words (v : option pyval) : option (option (list string)) :=
  match v with
  | Some PyNone => Some None
  | Some (PyList l) => Some <$> as_strings l
  | _ => None
  end.

Definition of_values (values : gmap string pyval) : option t :=
  c ← as_gate (values !! "create");
  cl ← as_words (values !! "create_list");
  r ← as_gate (values !! "read");
  rl ← as_words (values !! "read_list");
  u ← as_gate (values !! "update");
  ul ← as_words (values !! "update_list");
  d ← as_gate (values !! "delete");
  dl ← as_words (values !! "delete_list");
  Some {| create := c; create_list := cl; read := r; read_list := rl;
          update := u; update_list := ul; delete := d; delete_list := dl |}.

(** Construction without arguments: the declared defaults, then the
    validator. *)
Definition init_default (environ : gmap string string) : outcome t :=
  values ← validate_environment (get_from_dict_or_env environ) field_defaults;
  match of_values values with
  | Some cc => Return cc
  | None => Raise ValidationError
  end.

End CrudControls.


(** ** AnySDKTool *)

Module AnySDKTool.

Record t : Type := {
  client : gmap string sdk_object;
  name : string;
  description : string
}.

(** The tool is a pydantic model, as [BaseTool] is: construction checks
    the arguments against the declared field types.  [name] and
    [description] are declared [str], without a default and not
    [Optional], so [None] is refused for them with a validation error.
    [client] is [Any]. *)
Definition init (client : gmap string sdk_object) (name : string)
    (description : option string) : outcome t :=
  match description with
  | Some d => Return {| client := client; name := name; description := d |}
  | None => Raise ValidationError
  end.

(** Calling [func] with the keyword arguments unpacked from [params]:
    [params] has to be a mapping and [func] callable. *)
Definition call_kwargs (func : attribute) (params : pyval) : outcome pyval :=
  match params with
  | PyDict kwargs =>
      match attr_call func with
      | Some f => f kwargs
      | None => Raise TypeError
      end
  | _ => Raise TypeError
  end.

Section Run.
(** [json.loads]; [None] stands for [JSONDecodeError]. *)
Variable json_loads : string -> option pyval.
(** [json.dumps(_, default=str)] *)
Variable json_dumps : pyval -> outcome string.

(** The first statement of [_run]: the keyword arguments. *)
Definition resolve_params (tool_input : pyval) : pyval :=
  match tool_input with
  | PyDict _ => tool_input
  | PyStr s =>
      match json_loads s with
      | Some v => v
      | None => PyDict []
      end
  | _ => PyDict []
  end.

Definition _run (self : t) (tool_input : pyval) : outcome string :=
  try_except
    (let params := resolve_params tool_input in
     sdk ← subscript (client self) "client";
     func ← getattr sdk (name self);
     result ← call_kwargs func params;
     json_dumps result)
    is_AttributeError
    (Return ("Invalid function name: " +:+ name self)).

Definition _arun (self : t) (tool_input : pyval) : outcome string :=
  _run self tool_input.
End Run.

End AnySDKTool.

(** ** AnySdkWrapper *)

Module AnySdkWrapper.

Record t : Type := {
  client : gmap string sdk_object;
  operations : list AnySDKTool.t;
  crud_controls : option CrudControls.t
}.

(** The list comprehension of [_build_operations]: the names of [dir()]
    whose attribute is callable and that do not start with an
    underscore. *)
Fixpoint sdk_functions (handle : gmap string sdk_object) (names : list string)
    : outcome (list string) :=
  match names with
  | [] => Return []
  | func :: rest =>
      sdk ← subscript handle "client";
      a ← getattr sdk func;
      kept ← sdk_functions handle rest;
      mret (if callable a && negb (PyString.startswith func "_")
            then func :: kept else kept)
  end.

(** One of the four blocks of the loop body: the gate, the list that is
    not [None], and [any(word.lower() in func_name.lower() ...)]. *)
Definition category_pass (enabled : bool) (words : option (list string))
    (func_name : string) : bool :=
  if enabled then
    match words with
    | Some ws =>
        existsb (fun word =>
          PyString.contains (PyString.lower word) (PyString.lower func_name)) ws
    | None => false
    end
  else false.

(** The body of the loop after the operation is built. *)
Definition append_matching (crud_controls : option CrudControls.t)
    (func_name : string) (operation : AnySDKTool.t)
    (operations : list AnySDKTool.t) : list AnySDKTool.t :=
  match crud_controls with
  | Some cc =>
      let operations :=
        if category_pass (CrudControls.create cc) (CrudControls.create_list cc) func_name
        then operations ++ [operation] else operations in
      let operations :=
        if category_pass (CrudControls.read cc) (CrudControls.read_list cc) func_name
        then operations ++ [operation] else operations in
      let operations :=
        if category_pass (CrudControls.update cc) (CrudControls.update_list cc) func_name
        then operations ++ [operation] else operations in
      let operations :=
        if category_pass (CrudControls.delete cc) (CrudControls.delete_list cc) func_name
        then operations ++ [operation] else operations in
      operations
  | None => operations
  end.

Fixpoint build_loop (self : t) (names : list string)
    (operations : list AnySDKTool.t) : outcome (list AnySDKTool.t) :=
  match names with
  | [] => Return operations
  | func_name :: rest =>
      sdk ← subscript (client self) "client";
      func ← getattr sdk func_name;
      operation ← AnySDKTool.init (client self) func_name (attr_doc func);
      build_loop self rest
        (append_matching (crud_controls self) func_name operation operations)
  end.

Definition _build_operations (self : t) : outcome (list AnySDKTool.t) :=
  sdk ← subscript (client self) "client";
  names ← sdk_functions (client self) (dir sdk);
  build_loop self names [].

(** [__init__]: the fields, then [operations] from [_build_operations]. *)
Definition init (client : gmap string sdk_object)
    (crud_controls : option CrudControls.t) : outcome t :=
  let self := {| client := client; operations := [];
                 crud_controls := crud_controls |} in
  ops ← _build_operations self;
  mret {| client := client; operations := ops;
          crud_controls := crud_controls |}.

Definition get_tools (self : t) : list AnySDKTool.t := operations self.

End AnySdkWrapper.

(** ** The JSON encoder and decoder

    [json.dumps(_, default=str)] and [json.loads] with their default
    options, on the values of [pyval].  Floating-point numbers are not
    among these values: a number with a fraction or an exponent, [NaN] and
    [Infinity] are not decoded here, and an escape above [00ff] does not
    fit the 8-bit characters. *)

Module Json.

Definition quote : ascii := ascii_of_nat 34.
Definition backslash : ascii := ascii_of_nat 92.

Definition hex_digit (n : nat) : ascii :=
  if (n <? 10)%nat then ascii_of_nat (48 + n) else ascii_of_nat (87 + n).

(** One character of a string under [ensure_ascii]: the quote and the
    backslash are escaped, the control characters have their letter or a
    [\u00XX] escape, and so has every character outside [' '..'~']. *)
Definition escape_char (c : ascii) : string :=
  let n := nat_of_ascii c in
  if Ascii.eqb c quote then String backslash (String quote "")
  else if Ascii.eqb c backslash then String backslash (String backslash "")
  else if (n =? 10)%nat then String backslash "n"
  else if (n =? 13)%nat then String backslash "r"
  else if (n =? 9)%nat then String backslash "t"
  else if (n =? 8)%nat then String backslash "b"
  else if (n =? 12)%nat then String backslash "f"
  else if (32 <=? n)%nat && (n <=? 126)%nat then String c ""
  else String backslash
         (String "u" (String "0" (String "0"
           (String (hex_digit (n / 16)) (String (hex_digit (n mod 16)) ""))))).

Fixpoint escape (s : string) : string :=
  match s with
  | EmptyString => EmptyString
  | String c rest => escape_char c +:+ escape rest
  end.

Definition encode_string (s : string) : string :=
  String quote (escape s +:+ String quote "").

(** [repr] of an integer, in decimal. *)
Definition encode_int (z : Z) : string :=
  DecimalString.NilZero.string_of_int (Z.to_int z).

(** [sep.join(items)] *)
Fixpoint join (sep : string) (items : list string) : string :=
  match items with
  | [] => ""
  | [x] => x
  | x :: rest => x +:+ sep +:+ join sep rest
  end.

Fixpoint dumps (v : pyval) : string :=
  match v with
  | PyNone => "null"
  | PyBool true => "true"
  | PyBool false => "false"
  | PyInt z => encode_int z
  | PyStr s => encode_string s
  | PyList l => "[" +:+ join ", " (map dumps l) +:+ "]"
  | PyTuple l => "[" +:+ join ", " (map dumps l) +:+ "]"
  | PyDict d =>
      "{" +:+ join ", " (map (fun kv => encode_string (fst kv) +:+ ": " +:+ dumps (snd kv)) d)
          +:+ "}"
  | PyObj repr => encode_string repr
  end.

(** *** Decoding *)

Definition is_ws (c : ascii) : bool :=
  let n := nat_of_ascii c in
  (n =? 32)%nat || (n =? 9)%nat || (n =? 10)%nat || (n =? 13)%nat.

Fixpoint skip_ws (s : string) : string :=
  match s with
  | String c rest => if is_ws c then skip_ws rest else s
  | EmptyString => EmptyString
  end.

Definition is_digit (c : ascii) : bool :=
  let n := nat_of_ascii c in (48 <=? n)%nat && (n <=? 57)%nat.

Definition hex_value (c : ascii) : option nat :=
  let n := nat_of_ascii c in
  if (48 <=? n)%nat && (n <=? 57)%nat then Some (n - 48)
  else if (97 <=? n)%nat && (n <=? 102)%nat then Some (n - 87)
  else if (65 <=? n)%nat && (n <=? 70)%nat then Some (n - 55)
  else None.

Definition hex4 (a b c d : ascii) : option nat :=
  x ← hex_value a; y ← hex_value b; z ← hex_value c; w ← hex_value d;
  Some (((x * 16 + y) * 16 + z) * 16 + w).

(** The character after a backslash, other than [u]. *)
Definition unescape (e : ascii) : option ascii :=
  let n := nat_of_ascii e in
  if Ascii.eqb e quote then Some quote
  else if Ascii.eqb e backslash then Some backslash
  else if (n =? 47)%nat then Some (ascii_of_nat 47)
  else if (n =? 98)%nat then Some (ascii_of_nat 8)
  else if (n =? 102)%nat then Some (ascii_of_nat 12)
  else if (n =? 110)%nat then Some (ascii_of_nat 10)
  else if (n =? 114)%nat then Some (ascii_of_nat 13)
  else if (n =? 116)%nat then Some (ascii_of_nat 9)
  else None.

Definition prepend (c : ascii) (r : option (string * string))
    : option (string * string) :=
  match r with
  | Some (s, rest) => Some (String c s, rest)
  | None => None
  end.

(** The body of a string, after its opening quote, up to and including
    the closing one; a raw control character is refused. *)
Fixpoint scan_string (s : string) : option (string * string) :=
  match s with
  | EmptyString => None
  | String c r =>
      if Ascii.eqb c quote then Some (EmptyString, r)
      else if Ascii.eqb c backslash then
        match r with
        | EmptyString => None
        | String e r1 =>
            if Ascii.eqb e "u" then
              match r1 with
              | String h1 (String h2 (String h3 (String h4 r2))) =>
                  match hex4 h1 h2 h3 h4 with
                  | Some n =>
                      if (n <? 256)%nat
                      then prepend (ascii_of_nat n) (scan_string r2)
                      else None
                  | None => None
                  end
              | _ => None
              end
            else
              match unescape e with
              | Some ch => prepend ch (scan_string r1)
              | None => None
              end
        end
      else if (nat_of_ascii c <? 32)%nat then None
      else prepend c (scan_string r)
  end.

(** The longest prefix of digits. *)
Fixpoint span_digits (s : string) : string * string :=
  match s with
  | String c rest =>
      if is_digit c
      then let '(ds, r) := span_digits rest in (String c ds, r)
      else (EmptyString, s)
  | EmptyString => (EmptyString, EmptyString)
  end.

(** What follows the integer part makes the number a float: a point and
    a digit, or an exponent. *)
Definition starts_fraction (s : string) : bool :=
  match s with
  | String c (String d rest) =>
      if Ascii.eqb c "." then is_digit d
      else if Ascii.eqb c "e" || Ascii.eqb c "E" then
        is_digit d ||
        ((Ascii.eqb d "+" || Ascii.eqb d "-") &&
         match rest with String x _ => is_digit x | EmptyString => false end)
      else false
  | _ => false
  end.

(** The integer part [0|[1-9][0-9]*] with its text. *)
Definition scan_natural (s : string) : option (string * string) :=
  match s with
  | String c rest =>
      if Ascii.eqb c "0" then Some ("0", rest)
      else if is_digit c then Some (span_digits s)
      else None
  | EmptyString => None
  end.

Definition scan_number (s : string) : option (pyval * string) :=
  let '(negative, s1) :=
    match s with
    | String c rest => if Ascii.eqb c "-" then (true, rest) else (false, s)
    | EmptyString => (false, s)
    end in
  '(ds, rest) ← scan_natural s1;
  if starts_fraction rest then None
  else
    u ← DecimalString.NilEmpty.uint_of_string ds;
    Some (PyInt (Z.of_int (if negative then Decimal.Neg u else Decimal.Pos u)),
          rest).

(** [s] starts with [word]: what is left after it. *)
Fixpoint expect (word s : string) : option string :=
  match word, s with
  | EmptyString, _ => Some s
  | String a w, String b r => if Ascii.eqb a b then expect w r else None
  | String _ _, EmptyString => None
  end.

(** Storing a key in a dict: a key already there keeps its place. *)
Fixpoint dict_set (d : list (string * pyval)) (k : string) (v : pyval)
    : list (string * pyval) :=
  match d with
  | [] => [(k, v)]
  | (k', v') :: rest =>
      if String.eqb k' k then (k, v) :: rest else (k', v') :: dict_set rest k v
  end.

Definition dict_of_pairs (pairs : list (string * pyval))
    : list (string * pyval) :=
  fold_left (fun d kv => dict_set d (fst kv) (snd kv)) pairs [].

(** The decoder proper: one value, the elements of an array after its
    bracket, the members of an object after its brace.  [fuel] bounds the
    depth of the calls; [loads] starts from the length of the text. *)
Fixpoint scan_once (fuel : nat) (s : string) : option (pyval * string) :=
  match fuel with
  | O => None
  | S fuel =>
      match s with
      | EmptyString => None
      | String c rest =>
          if Ascii.eqb c quote then
            '(str, r) ← scan_string rest; Some (PyStr str, r)
          else if Ascii.eqb c "{" then
            match skip_ws rest with
            | String c1 r1 =>
                if Ascii.eqb c1 "}" then Some (PyDict [], r1)
                else
                  '(pairs, r) ← scan_members fuel (String c1 r1);
                  Some (PyDict (dict_of_pairs pairs), r)
            | EmptyString => None
            end
          else if Ascii.eqb c "[" then
            match skip_ws rest with
            | String c1 r1 =>
                if Ascii.eqb c1 "]" then Some (PyList [], r1)
                else
                  '(items, r) ← scan_elements fuel (String c1 r1);
                  Some (PyList items, r)
            | EmptyString => None
            end
          else if Ascii.eqb c "n" then
            r ← expect "ull" rest; Some (PyNone, r)
          else if Ascii.eqb c "t" then
            r ← expect "rue" rest; Some (PyBool true, r)
          else if Ascii.eqb c "f" then
            r ← expect "alse" rest; Some (PyBool false, r)
          else scan_number s
      end
  end
with scan_elements (fuel : nat) (s : string) : option (list pyval * string) :=
  match fuel with
  | O => None
  | S fuel =>
      '(v, r) ← scan_once fuel s;
      match skip_ws r with
      | String c r1 =>
          if Ascii.eqb c "," then
            '(vs, r2) ← scan_elements fuel (skip_ws r1); Some (v :: vs, r2)
          else if Ascii.eqb c "]" then Some ([v], r1)
          else None
      | EmptyString => None
      end
  end
with scan_members (fuel : nat) (s : string)
    : option (list (string * pyval) * string) :=
  match fuel with
  | O => None
  | S fuel =>
      match s with
      | String q r0 =>
          if Ascii.eqb q quote then
            '(key, r) ← scan_string r0;
            match skip_ws r with
            | String c r1 =>
                if Ascii.eqb c ":" then
                  '(v, r2) ← scan_once fuel (skip_ws r1);
                  match skip_ws r2 with
                  | String c2 r3 =>
                      if Ascii.eqb c2 "," then
                        '(kvs, r4) ← scan_members fuel (skip_ws r3);
                        Some ((key, v) :: kvs, r4)
                      else if Ascii.eqb c2 "}" then Some ([(key, v)], r3)
                      else None
                  | EmptyString => None
                  end
                else None
            | EmptyString => None
            end
          else None
      | EmptyString => None
      end
  end.

(** [json.loads(s)]; [None] is [JSONDecodeError]. *)
Definition loads (s : string) : option pyval :=
  let s := skip_ws s in
  '(v, rest) ← scan_once (S (String.length s)) s;
  match skip_ws rest with
  | EmptyString => Some v
  | String _ _ => None
  end.

(** A value made of [None], booleans, integers, strings, lists and
    dicts only: the types the decoder builds.  A tuple is not one of
    them. *)
Fixpoint json_native (v : pyval) : bool :=
  match v with
  | PyNone | PyBool _ | PyInt _ | PyStr _ => true
  | PyList l => forallb json_native l
  | PyDict d => forallb (fun kv => json_native (snd kv)) d
  | PyTuple _ | PyObj _ => false
  end.

Fixpoint distinct (keys : list string) : bool :=
  match keys with
  | [] => true
  | k :: rest => negb (existsb (String.eqb k) rest) && distinct rest
  end.

(** A dict holds a key once: the pairs of every [PyDict] have distinct
    keys. *)
Fixpoint well_formed (v : pyval) : bool :=
  match v with
  | PyList l => forallb well_formed l
  | PyTuple l => forallb well_formed l
  | PyDict d =>
      distinct (map fst d) && forallb (fun kv => well_formed (snd kv)) d
  | _ => true
  end.

End Json.

(** ** Vocabulary of the statements *)

(** The capital letters among the code points below 256: [A]..[Z], and
    the Latin-1 capitals from 192 to 222 but the multiplication sign. *)
Definition capital (c : ascii) : bool :=
  let n := nat_of_ascii c in
  ((65 <=? n)%nat && (n <=? 90)%nat)
  || ((192 <=? n)%nat && (n <=? 222)%nat && negb (n =? 215)%nat).

(** [a] and [b] are the same letter in either case: the same character,
    or a capital and its small form, which sits 32 code points after
    it. *)
Definition same_letter (a b : ascii) : bool :=
  Ascii.eqb a b
  || (capital a && (nat_of_ascii b =? nat_of_ascii a + 32)%nat)
  || (capital b && (nat_of_ascii a =? nat_of_ascii b + 32)%nat).

(** [s] and [t] are the same word when case is ignored: they have the
    same length and, place by place, the same letters. *)
Fixpoint same_word (s t : string) : bool :=
  match s, t with
  | EmptyString, EmptyString => true
  | String a s', String b t' => same_letter a b && same_word s' t'
  | _, _ => false
  end.

(** [w] occurs in [m] when case is ignored: some stretch of [m] is the
    same word as [w].  Nothing here refers to [PyString.lower]. *)
Definition ci_substring (w m : string) : Prop :=
  exists pre mid post,
    m = pre +:+ mid +:+ post /\ same_word mid w = true.

(** The four blocks of the loop body of [_build_operations], in the order
    in which the loop runs them. *)
Inductive category : Type := Create | Read | Update | Delete.

Definition categories : list category := [Create; Read; Update; Delete].

Definition gate (cc : CrudControls.t) (c : category) : bool :=
  match c with
  | Create => CrudControls.create cc
  | Read => CrudControls.read cc
  | Update => CrudControls.update cc
  | Delete => CrudControls.delete cc
  end.

Definition keywords (cc : CrudControls.t) (c : category) : option (list string) :=
  match c with
  | Create => CrudControls.create_list cc
  | Read => CrudControls.read_list cc
  | Update => CrudControls.update_list cc
  | Delete => CrudControls.delete_list cc
  end.

(** The categories whose block appends the operation of [func_name]. *)
Definition classify (cc : CrudControls.t) (func_name : string) : list category :=
  List.filter
    (fun c => AnySdkWrapper.category_pass (gate cc c) (keywords cc c) func_name)
    categories.

Definition matched (policy : option CrudControls.t) (func_name : string)
    : list category :=
  match policy with
  | Some cc => classify cc func_name
  | None => []
  end.

(** The names the list comprehension keeps. *)
Definition is_public_callable (sdk : sdk_object) (f : string) : bool :=
  match find_attr sdk f with
  | Some a => callable a && negb (PyString.startswith f "_")
  | None => false
  end.

Definition public_names (sdk : sdk_object) : list string :=
  List.filter (is_public_callable sdk) (dir sdk).

Definition has_doc (sdk : sdk_object) (f : string) : bool :=
  match find_attr sdk f with
  | Some a => match attr_doc a with Some _ => true | None => false end
  | None => false
  end.

(** What one turn of the loop adds for [f]: its operation, once for each
    category that matches. *)
Definition tools_for (self : AnySdkWrapper.t) (sdk : sdk_object) (f : string)
    : list AnySDKTool.t :=
  match find_attr sdk f with
  | Some a =>
      match attr_doc a with
      | Some d =>
          map (fun _ => {| AnySDKTool.client := AnySdkWrapper.client self;
                           AnySDKTool.name := f;
                           AnySDKTool.description := d |})
              (matched (AnySdkWrapper.crud_controls self) f)
      | None => []
      end
  | None => []
  end.

(** Every public callable attribute of the client carries a documentation
    string (which may be the empty one). *)
Definition all_documented (sdk : sdk_object) : bool :=
  forallb (has_doc sdk) (public_names sdk).

(** The client of the example: attributes with underscore names, then the
    two public methods, as [dir()] lists them. *)
Definition widget_client (private : sdk_object) (create_widget get_widget : attribute)
    : sdk_object :=
  private ++ [("create_widget", create_widget); ("get_widget", get_widget)].

Definition method (doc : option string)
    (body : list (string * pyval) -> outcome pyval) : attribute :=
  {| attr_doc := doc; attr_call := Some body |}.

(** *** Sample clients and policies *)

Definition noop (kwargs : list (string * pyval)) : outcome pyval := Return PyNone.

Definition default_policy : CrudControls.t :=
  {| CrudControls.create := false;
     CrudControls.create_list := Some ["create"];
     CrudControls.read := true;
     CrudControls.read_list := Some ["get"; "read"; "list"];
     CrudControls.update := false;
     CrudControls.update_list := Some ["update"; "put"; "post"];
     CrudControls.delete := false;
     CrudControls.delete_list := Some ["delete"; "destroy"; "remove"] |}.

(** Read and update both enabled. *)
Definition read_update_policy : CrudControls.t :=
  {| CrudControls.create := false;
     CrudControls.create_list := Some ["create"];
     CrudControls.read := true;
     CrudControls.read_list := Some ["get"; "read"; "list"];
     CrudControls.update := true;
     CrudControls.update_list := Some ["update"; "put"; "post"];
     CrudControls.delete := false;
     CrudControls.delete_list := Some ["delete"; "destroy"; "remove"] |}.

Definition widget_sdk : sdk_object :=
  widget_client [("_internal", method (Some "Internal.") noop)]
    (method (Some "Create a widget.") noop)
    (method (Some "Get a widget.") noop).

Definition widget_handle : gmap string sdk_object := {["client" := widget_sdk]}.

(** A client with one method whose name holds a read and an update
    keyword. *)
Definition status_sdk : sdk_object :=
  [("get_and_update_status", method (Some "Refresh the status.") noop)].

Definition status_handle : gmap string sdk_object := {["client" := status_sdk]}.

(** A client whose only method has no documentation string. *)
Definition bare_sdk : sdk_object := [("get_widget", method None noop)].

Definition bare_handle : gmap string sdk_object := {["client" := bare_sdk]}.

Definition wrapper (handle : gmap string sdk_object)
    (policy : option CrudControls.t) : AnySdkWrapper.t :=
  {| AnySdkWrapper.client := handle;
     AnySdkWrapper.operations := [];
     AnySdkWrapper.crud_controls := policy |}.

Definition tool (handle : gmap string sdk_object) (name description : string)
    : AnySDKTool.t :=
  {| AnySDKTool.client := handle;
     AnySDKTool.name := name;
     AnySDKTool.description := description |}.

(** A client whose method names mix the cases, and a policy whose read
    keywords are written in capitals.  The last name and the last keyword
    hold Latin-1 letters: the small e with an acute accent is the code
    point 233, the capital one 201. *)
Definition e_acute : ascii := ascii_of_nat 233.
Definition E_acute : ascii := ascii_of_nat 201.

Definition ete_op : string := String e_acute (String "t" (String e_acute "_op")).
Definition ETE : string := String E_acute (String "T" (String E_acute "")).

Definition camel_sdk : sdk_object :=
  [("MakeWidGet", method (Some "Make a widget.") noop);
   ("set_flag", method (Some "Set a flag.") noop);
   (ete_op, method (Some "Summer operation.") noop)].

Definition camel_handle : gmap string sdk_object := {["client" := camel_sdk]}.

Definition capital_policy : CrudControls.t :=
  {| CrudControls.create := false;
     CrudControls.create_list := Some ["create"];
     CrudControls.read := true;
     CrudControls.read_list := Some ["GET"; ETE];
     CrudControls.update := false;
     CrudControls.update_list := Some ["update"; "put"; "post"];
     CrudControls.delete := false;
     CrudControls.delete_list := Some ["delete"; "destroy"; "remove"] |}.

(** A client whose method fails inside with an [AttributeError], as when
    its body reads an attribute of [None]. *)
Definition broken_sdk : sdk_object :=
  [("get_widget", method (Some "Get a widget.") (fun _ => Raise AttributeError))].

Definition broken_handle : gmap string sdk_object := {["client" := broken_sdk]}.

(** A client whose method fails with an error of the SDK. *)
Definition failing_sdk : sdk_object :=
  [("get_widget",
    method (Some "Get a widget.") (fun _ => Raise (OtherError "ConnectionError")))].

Definition failing_handle : gmap string sdk_object := {["client" := failing_sdk]}.

(** A client whose method answers with its keyword arguments. *)
Definition echo_sdk : sdk_object :=
  [("get_widget", method (Some "Get a widget.") (fun kwargs => Return (PyDict kwargs)))].

Definition echo_handle : gmap string sdk_object := {["client" := echo_sdk]}.

(** The four fields that hold keyword lists. *)
Definition list_fields : list string :=
  ["create_list"; "read_list"; "update_list"; "delete_list"].

(** The environment variable and the built-in default of a list field. *)
Definition list_field_source (key : string) : string * string :=
  if String.eqb key "create_list"
  then ("ANYSDK_CRUD_CONTROLS_CREATE_LIST", ANYSDK_CRUD_CONTROLS_CREATE_LIST)
  else if String.eqb key "read_list"
  then ("ANYSDK_CRUD_CONTROLS_READ_LIST", ANYSDK_CRUD_CONTROLS_READ_LIST)
  else if String.eqb key "update_list"
  then ("ANYSDK_CRUD_CONTROLS_UPDATE_LIST", ANYSDK_CRUD_CONTROLS_UPDATE_LIST)
  else ("ANYSDK_CRUD_CONTROLS_DELETE_LIST", ANYSDK_CRUD_CONTROLS_DELETE_LIST).

(** What a list field resolves to without an override: the environment
    variable when it is set and not empty, else the default. *)
Definition fallback_text (environ : gmap string string) (key : string) : string :=
  match environ !! fst (list_field_source key) with
  | Some (String c s) => String c s
  | _ => snd (list_field_source key)
  end.

(** A field of the configuration that the validator can split: left out,
    false in the sense of [bool()], or a string. *)
Definition splittable (values : gmap string pyval) (key : string) : bool :=
  match values !! key with
  | None => true
  | Some (PyStr _) => true
  | Some v => negb (truthy v)
  end.

(** Configurations that override the keywords of [create]: with a
    comma-separated string, with a list, with the empty string. *)
Definition string_override : gmap string pyval :=
  {["create_list" := PyStr "make,add"]} ∪ CrudControls.field_defaults.

Definition list_override : gmap string pyval :=
  {["create_list" := PyList [PyStr "make"; PyStr "add"]]} ∪ CrudControls.field_defaults.

Definition empty_override : gmap string pyval :=
  {["create_list" := PyStr ""]} ∪ CrudControls.field_defaults.

(** What decoding gives back for an encoded value: a tuple has become a
    list, since both are written as a JSON array, and an object that is
    not native to JSON has become the string [str()] gives for it. *)
Fixpoint stringify (v : pyval) : pyval :=
  match v with
  | PyList l => PyList (map stringify l)
  | PyTuple l => PyList (map stringify l)
  | PyDict d => PyDict (map (fun kv => (fst kv, stringify (snd kv))) d)
  | PyObj repr => PyStr repr
  | _ => v
  end.

(** The text after an encoded value ends it: nothing, or a comma or a
    closing bracket. *)
Definition terminates (rest : string) : bool :=
  match rest with
  | EmptyString => true
  | String c _ => Ascii.eqb c "," || Ascii.eqb c "]" || Ascii.eqb c "}"
  end.

(** One pair of a dict as the encoder writes it. *)
Definition member_text (kv : string * pyval) : string :=
  Json.encode_string (fst kv) +:+ ": " +:+ Json.dumps (snd kv).

(** The decoder gives the value back from its text, whatever follows. *)
Definition decodes (v : pyval) : Prop :=
  forall fuel rest,
    String.length (Json.dumps v) <= fuel ->
    terminates rest = true ->
    Json.well_formed v = true ->
    Json.scan_once fuel (Json.dumps v +:+ rest) = Some (stringify v, rest).

(** Arguments and a result made of mappings, sequences and primitives. *)
Definition nested_arguments : list (string * pyval) :=
  [("id", PyInt 5);
   ("tags", PyList [PyStr "a b"; PyNone; PyBool true; PyInt (-12)]);
   ("filter", PyDict [("name", PyStr "x\y"); ("empty", PyList [])])].




(** The encoder as [_run] calls it, [json.dumps(result, default=str)].
    On the values of [pyval] it raises nothing: [TypeError] takes a dict
    key that is neither a string, a number, a boolean nor [None], and
    [ValueError] a value that holds itself, and [pyval] has neither. *)
Definition json_dumps (v : pyval) : outcome string := Return (Json.dumps v).

(** ** Vocabulary of the further properties *)

(** [cc'] opens every gate [cc] opens and has, for an open gate of [cc],
    all its keywords. *)
Definition permits_more (cc cc' : CrudControls.t) : bool :=
  forallb
    (fun c =>
       implb (gate cc c)
         (gate cc' c &&
          match keywords cc c, keywords cc' c with
          | Some ws, Some ws' =>
              forallb (fun w => existsb (String.eqb w) ws') ws
          | Some _, None => false
          | None, _ => true
          end))
    categories.

Definition all_gates_off (cc : CrudControls.t) : bool :=
  forallb (fun c => negb (gate cc c)) categories.

(** Only characters from the space to the tilde. *)
Definition printable_char (c : ascii) : bool :=
  let n := nat_of_ascii c in (32 <=? n)%nat && (n <=? 126)%nat.

Fixpoint printable (s : string) : bool :=
  match s with
  | EmptyString => true
  | String c rest => printable_char c && printable rest
  end.

(** The four fields that hold gates. *)
Definition gate_fields : list string := ["create"; "read"; "update"; "delete"].

(** A policy with an empty keyword among those of [update], as the
    string ["update,"] gives. *)
Definition trailing_comma_policy : CrudControls.t :=
  {| CrudControls.create := false;
     CrudControls.create_list := Some ["create"];
     CrudControls.read := false;
     CrudControls.read_list := Some ["get"; "read"; "list"];
     CrudControls.update := true;
     CrudControls.update_list := Some ["update"; ""];
     CrudControls.delete := false;
     CrudControls.delete_list := Some ["delete"; "destroy"; "remove"] |}.

Definition closed_policy : CrudControls.t :=
  {| CrudControls.create := false;
     CrudControls.create_list := Some ["create"];
     CrudControls.read := false;
     CrudControls.read_list := Some ["get"; "read"; "list"];
     CrudControls.update := false;
     CrudControls.update_list := Some ["update"; "put"; "post"];
     CrudControls.delete := false;
     CrudControls.delete_list := Some ["delete"; "destroy"; "remove"] |}.

(** A client with a method and an attribute that is not callable. *)
Definition mixed_sdk : sdk_object :=
  [("get_widget", method (Some "Get a widget.") (fun kwargs => Return (PyDict kwargs)));
   ("region", {| attr_doc := Some "str(object) -> str"; attr_call := None |})].

Definition mixed_handle : gmap string sdk_object := {["client" := mixed_sdk]}.

(** The environment variable and the built-in default of a gate. *)
Definition gate_field_source (key : string) : string * bool :=
  if String.eqb key "create"
  then ("ANYSDK_CRUD_CONTROLS_CREATE", ANYSDK_CRUD_CONTROLS_CREATE)
  else if String.eqb key "read"
  then ("ANYSDK_CRUD_CONTROLS_READ", ANYSDK_CRUD_CONTROLS_READ)
  else if String.eqb key "update"
  then ("ANYSDK_CRUD_CONTROLS_UPDATE", ANYSDK_CRUD_CONTROLS_UPDATE)
  else ("ANYSDK_CRUD_CONTROLS_DELETE", ANYSDK_CRUD_CONTROLS_DELETE).

(** A gate is on when the configuration holds a true value for it, or
    its environment variable is set and not empty, or its default is on. *)
Definition resolved_gate (environ : gmap string string)
    (values : gmap string pyval) (key : string) : bool :=
  match values !! key with Some v => truthy v | None => false end ||
  match environ !! fst (gate_field_source key) with
  | Some (String _ _) => true
  | _ => false
  end ||
  snd (gate_field_source key).

(** A configuration that asks for [read] to be off. *)
Definition read_off_config : gmap string pyval :=
  {["read" := PyBool false]} ∪ CrudControls.field_defaults.

(** What the validator makes of the declared defaults, and of a
    configuration with other keywords for [create]. *)
Definition validated_defaults : gmap string pyval :=
  list_to_map
    [("create", PyBool false); ("create_list", PyList [PyStr "create"]);
     ("read", PyBool true);
     ("read_list", PyList [PyStr "get"; PyStr "read"; PyStr "list"]);
     ("update", PyBool false);
     ("update_list", PyList [PyStr "update"; PyStr "put"; PyStr "post"]);
     ("delete", PyBool false);
     ("delete_list", PyList [PyStr "delete"; PyStr "destroy"; PyStr "remove"])].

Definition validated_override : gmap string pyval :=
  <["create_list" := PyList [PyStr "make"; PyStr "add"]]> validated_defaults.

(** * Facts *)

(** ** Strings *)

Section StringFacts.
Import PyString.

Lemma string_app_cons (c : ascii) (s t : string) : String c s +:+ t = String c (s +:+ t).
Proof. reflexivity. Qed.

Lemma string_app_nil_l (s : string) : "" +:+ s = s.
Proof. reflexivity. Qed.

Lemma string_app_nil_r (s : string) : s +:+ "" = s.
Proof. induction s as [|c s IH]; [reflexivity|]. by rewrite string_app_cons, IH. Qed.

Lemma string_app_assoc (s t u : string) : (s +:+ t) +:+ u = s +:+ (t +:+ u).
Proof. induction s as [|c s IH]; [reflexivity|]. by rewrite !string_app_cons, IH. Qed.

Lemma string_app_length (s t : string) :
  String.length (s +:+ t) = String.length s + String.length t.
Proof. induction s as [|c s IH]; [reflexivity|]. rewrite string_app_cons. simpl. lia. Qed.

Lemma startswith_spec (s p : string) :
  startswith s p = true <-> exists post, s = p +:+ post.
Proof.
  revert s. induction p as [|a p IH]; intros s; simpl.
  - split; [intros _; by exists s | done].
  - destruct s as [|b s].
    + split; [done | intros [post H]; rewrite string_app_cons in H; discriminate].
    + destruct (Ascii.eqb_spec a b) as [->|Hne].
      * rewrite IH. split; intros [post H]; exists post.
        -- by rewrite string_app_cons, H.
        -- rewrite string_app_cons in H. by injection H.
      * split; [done|]. intros [post H]. rewrite string_app_cons in H.
        injection H as H1 _. congruence.
Qed.

(** [needle in hay] holds exactly when [hay] is [pre + needle + post]. *)
Lemma contains_spec (needle hay : string) :
  contains needle hay = true <-> exists pre post, hay = pre +:+ needle +:+ post.
Proof.
  induction hay as [|c hay IH]; simpl.
  - rewrite orb_false_r, startswith_spec. split.
    + intros [post H]. by exists "", post.
    + intros [pre [post H]]. destruct pre; [by exists post|].
      rewrite string_app_cons in H. discriminate.
  - rewrite orb_true_iff, IH, startswith_spec. split.
    + intros [[post H]|[pre [post H]]].
      * by exists "", post.
      * exists (String c pre), post. by rewrite string_app_cons, H.
    + intros [pre [post H]]. destruct pre as [|a pre].
      * left. by exists post.
      * right. rewrite string_app_cons in H. injection H as _ H. by exists pre, post.
Qed.

Lemma lower_app (s t : string) : lower (s +:+ t) = lower s +:+ lower t.
Proof.
  induction s as [|c s IH]; [reflexivity|].
  rewrite string_app_cons. simpl. by rewrite IH, string_app_cons.
Qed.

(** A decomposition of [lower m] comes from one of [m]. *)
Lemma lower_app_inv (m a b : string) :
  lower m = a +:+ b -> exists x y, m = x +:+ y /\ lower x = a /\ lower y = b.
Proof.
  revert m. induction a as [|c a IH]; intros m H.
  - by exists "", m.
  - destruct m as [|d m]; [discriminate|].
    rewrite string_app_cons in H. simpl in H. injection H as Hc H.
    destruct (IH m H) as (x & y & -> & Hx & Hy).
    exists (String d x), y. simpl. by rewrite Hc, Hx.
Qed.

(** Every character is one of the 256 code points of the model. *)
Lemma ascii_enumerated (c : ascii) : In c (map ascii_of_nat (seq 0 256)).
Proof.
  rewrite <- (ascii_nat_embedding c). apply in_map, in_seq.
  pose proof (nat_ascii_bounded c). lia.
Qed.

(** Two characters have the same lower case form exactly when they are
    the same letter: checked on each of the 256 x 256 pairs. *)
Lemma lower_char_same_letter (a b : ascii) :
  Ascii.eqb (lower_char a) (lower_char b) = same_letter a b.
Proof.
  assert (forallb
            (fun x => forallb
               (fun y => Bool.eqb (Ascii.eqb (lower_char x) (lower_char y))
                                  (same_letter x y))
               (map ascii_of_nat (seq 0 256)))
            (map ascii_of_nat (seq 0 256)) = true) as H
    by (vm_compute; reflexivity).
  rewrite forallb_forall in H. specialize (H a (ascii_enumerated a)).
  rewrite forallb_forall in H. specialize (H b (ascii_enumerated b)).
  by apply Bool.eqb_prop in H.
Qed.

Lemma lower_same_word (s t : string) :
  lower s = lower t <-> same_word s t = true.
Proof.
  revert t. induction s as [|a s IH]; intros [|b t]; simpl; try done.
  rewrite andb_true_iff, <- IH, <- lower_char_same_letter. split.
  - intros [= Hc Hs]. split; [|done]. rewrite Hc. apply Ascii.eqb_refl.
  - intros [Hc ->]. apply Ascii.eqb_eq in Hc. by rewrite Hc.
Qed.

(** The test of the code, [w.lower() in m.lower()], against the
    occurrence of [w] in [m] with case ignored. *)
Lemma contains_lower_spec (w m : string) :
  contains (lower w) (lower m) = true <-> ci_substring w m.
Proof.
  rewrite contains_spec. split.
  - intros (pre & post & H).
    destruct (lower_app_inv _ _ _ H) as (x & y & -> & _ & Hy).
    destruct (lower_app_inv _ _ _ Hy) as (mid & z & -> & Hmid & _).
    exists x, mid, z. split; [done|]. by apply lower_same_word.
  - intros (pre & mid & post & -> & H). apply lower_same_word in H.
    exists (lower pre), (lower post). by rewrite !lower_app, H.
Qed.

(** [split] never gives the empty list. *)
Lemma split_nonempty (sep : ascii) (s : string) : split sep s <> [].
Proof.
  induction s as [|c s IH]; simpl; [done|].
  destruct (Ascii.eqb c sep); [done|]. by destruct (split sep s).
Qed.

(** Joining the pieces with the separator gives the string back. *)
Lemma join_split (sep : ascii) (s : string) :
  Json.join (String sep "") (split sep s) = s.
Proof.
  induction s as [|c s IH]; simpl; [done|].
  destruct (Ascii.eqb_spec c sep) as [->|Hne].
  - pose proof (split_nonempty sep s) as Hne.
    destruct (split sep s) as [|w ws] eqn:E; [done|].
    change (Json.join (String sep "") ("" :: w :: ws))
      with ("" +:+ String sep "" +:+ Json.join (String sep "") (w :: ws)).
    by rewrite IH.
  - pose proof (split_nonempty sep s) as Hne'.
    destruct (split sep s) as [|w ws] eqn:E; [done|].
    destruct ws as [|w' ws].
    + simpl in *. by rewrite IH.
    + change (Json.join (String sep "") (String c w :: w' :: ws))
        with (String c w +:+ String sep "" +:+ Json.join (String sep "") (w' :: ws)).
      change (Json.join (String sep "") (w :: w' :: ws))
        with (w +:+ String sep "" +:+ Json.join (String sep "") (w' :: ws)) in IH.
      by rewrite string_app_cons, IH.
Qed.
End StringFacts.

(** ** The catalog *)

Section WrapperFacts.
Import AnySdkWrapper.

Lemma bind_Return {A B} (a : A) (k : A -> outcome B) : (Return a ≫= k) = k a.
Proof. reflexivity. Qed.

Lemma find_attr_dir (sdk : sdk_object) (f : string) :
  In f (dir sdk) -> is_Some (find_attr sdk f).
Proof.
  induction sdk as [|[n a] sdk IH]; simpl; [done|].
  intros [->|H].
  - rewrite String.eqb_refl. by eexists.
  - destruct (String.eqb n f); [by eexists | by apply IH].
Qed.

Lemma sdk_functions_eq (handle : gmap string sdk_object) (sdk : sdk_object)
    (names : list string) :
  handle !! "client" = Some sdk ->
  (forall f, In f names -> is_Some (find_attr sdk f)) ->
  sdk_functions handle names = Return (List.filter (is_public_callable sdk) names).
Proof.
  intros Hh. induction names as [|f names IH]; intros Hall; [reflexivity|].
  cbn [sdk_functions List.filter]. unfold subscript. rewrite Hh, bind_Return.
  destruct (Hall f (or_introl eq_refl)) as [a Ha].
  unfold getattr, is_public_callable. rewrite Ha, bind_Return.
  rewrite IH by (intros g Hg; apply Hall; by right).
  rewrite bind_Return. unfold mret, outcome_ret.
  by destruct (callable a && negb (PyString.startswith f "_")).
Qed.

Lemma append_matching_eq (policy : option CrudControls.t) (f : string)
    (op : AnySDKTool.t) (ops : list AnySDKTool.t) :
  append_matching policy f op ops = ops ++ map (fun _ => op) (matched policy f).
Proof.
  destruct policy as [cc|]; simpl; [|by rewrite app_nil_r].
  unfold classify, categories. simpl.
  destruct (category_pass (CrudControls.create cc) _ f),
           (category_pass (CrudControls.read cc) _ f),
           (category_pass (CrudControls.update cc) _ f),
           (category_pass (CrudControls.delete cc) _ f);
    simpl; rewrite <- ?List.app_assoc; simpl; by rewrite ?List.app_nil_r.
Qed.

(** The loop either builds every operation or stops at the first name
    whose attribute has no documentation string. *)
Lemma build_loop_eq (self : t) (sdk : sdk_object) (names : list string)
    (acc : list AnySDKTool.t) :
  client self !! "client" = Some sdk ->
  (forall f, In f names -> is_Some (find_attr sdk f)) ->
  build_loop self names acc =
    if forallb (has_doc sdk) names
    then Return (acc ++ flat_map (tools_for self sdk) names)
    else Raise ValidationError.
Proof.
  intros Hh. revert acc. induction names as [|f names IH]; intros acc Hall.
  - simpl. by rewrite List.app_nil_r.
  - cbn [build_loop forallb flat_map]. unfold subscript.
    rewrite Hh, bind_Return.
    destruct (Hall f (or_introl eq_refl)) as [a Ha].
    unfold getattr. rewrite Ha, bind_Return.
    assert (has_doc sdk f = match attr_doc a with Some _ => true | None => false end)
      as -> by (unfold has_doc; by rewrite Ha).
    assert (tools_for self sdk f =
            match attr_doc a with
            | Some d =>
                map (fun _ => {| AnySDKTool.client := client self;
                                 AnySDKTool.name := f;
                                 AnySDKTool.description := d |})
                    (matched (crud_controls self) f)
            | None => []
            end) as -> by (unfold tools_for; by rewrite Ha).
    destruct (attr_doc a) as [d|]; [|reflexivity].
    cbn [AnySDKTool.init andb]. rewrite bind_Return.
    rewrite IH by (intros g Hg; apply Hall; by right).
    rewrite append_matching_eq.
    destruct (forallb (has_doc sdk) names); [|reflexivity].
    by rewrite <- List.app_assoc.
Qed.

Lemma public_names_found (sdk : sdk_object) (f : string) :
  In f (public_names sdk) -> is_Some (find_attr sdk f).
Proof. intros [H _]%filter_In. by apply find_attr_dir. Qed.

(** [_build_operations] in closed form. *)
Lemma build_operations_eq (self : t) (sdk : sdk_object) :
  client self !! "client" = Some sdk ->
  _build_operations self =
    if forallb (has_doc sdk) (public_names sdk)
    then Return (flat_map (tools_for self sdk) (public_names sdk))
    else Raise ValidationError.
Proof.
  intros Hh. unfold _build_operations, subscript. rewrite Hh, bind_Return.
  rewrite (sdk_functions_eq _ sdk) by (done || apply find_attr_dir).
  rewrite bind_Return.
  by rewrite (build_loop_eq self sdk) by (done || apply public_names_found).
Qed.

Lemma build_operations_no_client (self : t) :
  client self !! "client" = None -> _build_operations self = Raise KeyError.
Proof. intros Hh. unfold _build_operations, subscript. by rewrite Hh. Qed.

Lemma build_operations_returns (self : t) (sdk : sdk_object)
    (ops : list AnySDKTool.t) :
  client self !! "client" = Some sdk ->
  _build_operations self = Return ops ->
  forallb (has_doc sdk) (public_names sdk) = true /\
  ops = flat_map (tools_for self sdk) (public_names sdk).
Proof.
  intros Hh. rewrite (build_operations_eq self sdk Hh).
  destruct (forallb _ _); [|discriminate]. intros [= <-]. done.
Qed.

Lemma category_pass_iff (enabled : bool) (words : option (list string))
    (m : string) :
  category_pass enabled words m = true <->
  enabled = true /\
  exists ws w, words = Some ws /\ In w ws /\ ci_substring w m.
Proof.
  unfold category_pass.
  destruct enabled; [|split; [discriminate | by intros [? _]]].
  destruct words as [ws|];
    [|split; [discriminate | by intros (_ & ? & ? & ? & _)]].
  rewrite existsb_exists. split.
  - intros (w & Hin & Hc). split; [done|]. exists ws, w.
    split_and!; [done..|]. by apply contains_lower_spec.
  - intros (_ & ws' & w & [= <-] & Hin & Hc). exists w.
    split; [done|]. by apply contains_lower_spec.
Qed.

Lemma classify_iff (cc : CrudControls.t) (m : string) (c : category) :
  In c (classify cc m) <->
  gate cc c = true /\
  exists ws w, keywords cc c = Some ws /\ In w ws /\ ci_substring w m.
Proof.
  unfold classify. rewrite filter_In, category_pass_iff.
  split; [by intros [_ H] | intros H; split; [|done]].
  unfold categories. destruct c; simpl; auto.
Qed.

Lemma tools_for_names (self : t) (sdk : sdk_object) (f : string) :
  has_doc sdk f = true ->
  map AnySDKTool.name (tools_for self sdk f) =
  map (fun _ => f) (matched (crud_controls self) f).
Proof.
  unfold has_doc, tools_for. destruct (find_attr sdk f) as [a|]; [|done].
  destruct (attr_doc a); [|done]. intros _. by rewrite map_map.
Qed.

Lemma find_attr_Some_dir (sdk : sdk_object) (f : string) (a : attribute) :
  find_attr sdk f = Some a -> In f (dir sdk).
Proof.
  induction sdk as [|[n b] sdk IH]; simpl; [done|].
  destruct (String.eqb_spec n f) as [->|Hne]; [by left | right; by apply IH].
Qed.

Lemma public_names_iff (sdk : sdk_object) (f : string) :
  In f (public_names sdk) <->
  exists a, find_attr sdk f = Some a /\ callable a = true /\
            PyString.startswith f "_" = false.
Proof.
  unfold public_names, is_public_callable. rewrite filter_In. split.
  - intros [_ H]. destruct (find_attr sdk f) as [a|]; [|done].
    apply andb_true_iff in H as [Hc Hs]. apply negb_true_iff in Hs. by exists a.
  - intros (a & Ha & Hc & Hs). split; [by eapply find_attr_Some_dir|].
    by rewrite Ha, Hc, Hs.
Qed.

(** With documented methods the construction returns. *)
Lemma build_operations_total (self : t) (sdk : sdk_object) :
  client self !! "client" = Some sdk -> all_documented sdk = true ->
  _build_operations self =
    Return (flat_map (tools_for self sdk) (public_names sdk)).
Proof.
  intros Hh Hdoc. unfold all_documented in Hdoc.
  by rewrite (build_operations_eq self sdk Hh), Hdoc.
Qed.

Lemma tools_for_no_policy (self : t) (sdk : sdk_object) (names : list string) :
  crud_controls self = None -> flat_map (tools_for self sdk) names = [].
Proof.
  intros Hp. induction names as [|f names IH]; [done|].
  cbn [flat_map]. rewrite IH, List.app_nil_r. unfold tools_for. rewrite Hp.
  destruct (find_attr sdk f) as [a|]; [|done]. by destruct (attr_doc a).
Qed.

Lemma count_copies (op : AnySDKTool.t) (m : string) (l : list category) :
  length (List.filter (fun op' => String.eqb (AnySDKTool.name op') m)
            (map (fun _ => op) l)) =
  if String.eqb (AnySDKTool.name op) m then length l else 0.
Proof.
  induction l as [|c l IH]; simpl.
  - by destruct (String.eqb _ m).
  - destruct (String.eqb (AnySDKTool.name op) m); simpl; by rewrite IH.
Qed.

Lemma count_named (self : t) (sdk : sdk_object) (m : string) (names : list string) :
  forallb (has_doc sdk) names = true ->
  length (List.filter (fun op => String.eqb (AnySDKTool.name op) m)
            (flat_map (tools_for self sdk) names)) =
  count_occ string_dec names m * length (matched (crud_controls self) m).
Proof.
  induction names as [|f names IH]; [reflexivity|].
  cbn [forallb flat_map count_occ]. intros [Hf Hrest]%andb_true_iff.
  rewrite List.filter_app, List.length_app, (IH Hrest). clear IH Hrest.
  unfold has_doc in Hf. unfold tools_for.
  destruct (find_attr sdk f) as [a|]; [|done].
  destruct (attr_doc a) as [d|]; [|done].
  rewrite count_copies. cbn [AnySDKTool.name].
  destruct (string_dec f m) as [->|Hne].
  - rewrite String.eqb_refl. lia.
  - destruct (String.eqb_spec f m); [done|lia].
Qed.

Lemma find_attr_skip_private (private rest : sdk_object) (f : string) :
  Forall (fun na => PyString.startswith (fst na) "_" = true) private ->
  PyString.startswith f "_" = false ->
  find_attr (private ++ rest) f = find_attr rest f.
Proof.
  intros Hp Hf. induction Hp as [|[n a] private Hn _ IH]; [done|].
  cbn [app find_attr]. destruct (String.eqb_spec n f) as [->|_]; [|done].
  cbn [fst] in Hn. congruence.
Qed.

Lemma filter_private (sdk : sdk_object) (names : list string) :
  Forall (fun n => PyString.startswith n "_" = true) names ->
  List.filter (is_public_callable sdk) names = [].
Proof.
  induction 1 as [|n names Hn _ IH]; [done|].
  cbn [List.filter]. rewrite IH. unfold is_public_callable. rewrite Hn.
  destruct (find_attr sdk n); [|done]. by rewrite andb_false_r.
Qed.
End WrapperFacts.

(** ** Claims about the catalog *)

Section CatalogClaims.
Import AnySdkWrapper.



(** Letters are matched across the cases, the Latin-1 ones included, and
    only letters: [set_flag] holds neither keyword. *)
Lemma case_is_ignored :
  classify capital_policy "MakeWidGet" = [Read] /\
  classify capital_policy ete_op = [Read] /\
  classify capital_policy "set_flag" = [] /\
  ci_substring "GET" "MakeWidGet" /\
  ci_substring ETE ete_op /\
  _build_operations (wrapper camel_handle (Some capital_policy)) =
    Return [tool camel_handle "MakeWidGet" "Make a widget.";
            tool camel_handle ete_op "Summer operation."].
Proof.
  split_and!; try (vm_compute; reflexivity).
  - by exists "MakeWid", "Get", "".
  - by exists "", (String e_acute (String "t" (String e_acute ""))), "_op".
Qed.

(** C5.  Built without a policy, the operations list is empty whatever
    the client exposes: a construction that returns returns the empty
    list, and it does return once the public methods are documented. *)
Theorem no_policy_no_operations (self : t) (sdk : sdk_object) :
  crud_controls self = None ->
  client self !! "client" = Some sdk ->
  (forall ops, _build_operations self = Return ops -> ops = []) /\
  (all_documented sdk = true -> _build_operations self = Return []).
Proof.
  intros Hp Hh. split.
  - intros ops Hb.
    destruct (build_operations_returns self sdk ops Hh Hb) as [_ ->].
    by apply tools_for_no_policy.
  - intros Hdoc. rewrite (build_operations_total self sdk Hh Hdoc).
    by rewrite tools_for_no_policy.
Qed.

Lemma no_policy_no_operations_witness :
  _build_operations (wrapper widget_handle None) = Return [].
Proof.
  apply (proj2 (no_policy_no_operations (wrapper widget_handle None) widget_sdk
                  eq_refl eq_refl)).
  reflexivity.
Defined.

Lemma CrudControls_default : CrudControls.init_default ∅ = Return default_policy.
Proof. vm_compute. reflexivity. Qed.

Lemma widget_find_create (private : sdk_object) (c g : attribute) :
  Forall (fun na => PyString.startswith (fst na) "_" = true) private ->
  find_attr (widget_client private c g) "create_widget" = Some c.
Proof. intros Hp. unfold widget_client. by rewrite find_attr_skip_private. Qed.

Lemma widget_find_get (private : sdk_object) (c g : attribute) :
  Forall (fun na => PyString.startswith (fst na) "_" = true) private ->
  find_attr (widget_client private c g) "get_widget" = Some g.
Proof. intros Hp. unfold widget_client. by rewrite find_attr_skip_private. Qed.

Lemma widget_public_names (private : sdk_object) (c g : attribute) :
  Forall (fun na => PyString.startswith (fst na) "_" = true) private ->
  callable c = true -> callable g = true ->
  public_names (widget_client private c g) = ["create_widget"; "get_widget"].
Proof.
  intros Hp Hc Hg. unfold public_names, dir.
  unfold widget_client at 2. rewrite map_app, List.filter_app.
  rewrite filter_private by (by apply Forall_map).
  cbn [map fst List.filter app]. unfold is_public_callable.
  by rewrite widget_find_create, widget_find_get, Hc, Hg.
Qed.

(** C6, as the code has it.  For a client whose public methods are
    [create_widget] and [get_widget], all other attributes having
    underscore names, a policy with only read enabled and the read keywords
    [get], [read], [list] keeps both: [get] occurs in [create_widget] as
    well, at the end of [widget]. *)
Theorem default_policy_widget_catalog (private : sdk_object)
    (create_doc get_doc : string)
    (create_body get_body : list (string * pyval) -> outcome pyval)
    (cc : CrudControls.t) :
  Forall (fun na => PyString.startswith (fst na) "_" = true) private ->
  CrudControls.create cc = false ->
  CrudControls.read cc = true ->
  CrudControls.read_list cc = Some ["get"; "read"; "list"] ->
  CrudControls.update cc = false ->
  CrudControls.delete cc = false ->
  let sdk := widget_client private (method (Some create_doc) create_body)
               (method (Some get_doc) get_body) in
  let handle : gmap string sdk_object := {["client" := sdk]} in
  _build_operations (wrapper handle (Some cc)) =
  Return [tool handle "create_widget" create_doc;
          tool handle "get_widget" get_doc].
Proof.
  intros Hp Hcreate Hread Hwords Hupdate Hdelete sdk handle.
  pose proof (widget_public_names private _ _ Hp
                (eq_refl : callable (method (Some create_doc) create_body) = true)
                (eq_refl : callable (method (Some get_doc) get_body) = true)) as Hn.
  pose proof (widget_find_create private (method (Some create_doc) create_body)
                (method (Some get_doc) get_body) Hp) as Hc.
  pose proof (widget_find_get private (method (Some create_doc) create_body)
                (method (Some get_doc) get_body) Hp) as Hg.
  fold sdk in Hn, Hc, Hg. clearbody sdk.
  rewrite (build_operations_eq _ sdk) by apply lookup_singleton_eq.
  rewrite Hn. cbn [forallb flat_map]. unfold has_doc, tools_for.
  rewrite Hc, Hg. cbn [wrapper crud_controls matched].
  unfold classify, categories. cbn [List.filter gate keywords].
  rewrite Hcreate, Hread, Hwords, Hupdate, Hdelete. reflexivity.
Qed.

Lemma default_policy_widget_catalog_witness :
  _build_operations (wrapper widget_handle (Some default_policy)) =
  Return [tool widget_handle "create_widget" "Create a widget.";
          tool widget_handle "get_widget" "Get a widget."].
Proof.
  unfold widget_handle, widget_sdk.
  apply (default_policy_widget_catalog
           [("_internal", method (Some "Internal.") noop)]
           "Create a widget." "Get a widget." noop noop default_policy);
    [repeat constructor | reflexivity..].
Defined.

(** C6, as the claim has it, fails: on the sample client the policy built
    without arguments yields two operations, not [get_widget] alone. *)
Lemma widget_catalog_counterexample :
  (cc ← CrudControls.init_default ∅;
   w ← AnySdkWrapper.init widget_handle (Some cc);
   mret (map AnySDKTool.name (get_tools w))) =
    Return ["create_widget"; "get_widget"] /\
  (cc ← CrudControls.init_default ∅;
   w ← AnySdkWrapper.init widget_handle (Some cc);
   mret (map AnySDKTool.name (get_tools w))) <>
    Return ["get_widget"].
Proof.
  assert ((cc ← CrudControls.init_default ∅;
           w ← AnySdkWrapper.init widget_handle (Some cc);
           mret (map AnySDKTool.name (get_tools w))) =
          Return ["create_widget"; "get_widget"]) as E
    by (vm_compute; reflexivity).
  split; [exact E | rewrite E; discriminate].
Qed.

(** C7, at the failing input: a public method without a documentation
    string makes the construction raise. *)
Theorem undocumented_method_raises :
  _build_operations (wrapper bare_handle (Some default_policy)) =
  Raise ValidationError.
Proof. vm_compute. reflexivity. Qed.

(** A client without public callable attributes gives the empty list;
    [build_operations_total] has the documented methods, the empty string
    included. *)
Lemma build_operations_no_methods (self : t) (sdk : sdk_object) :
  client self !! "client" = Some sdk -> public_names sdk = [] ->
  _build_operations self = Return [].
Proof.
  intros Hh Hn. rewrite (build_operations_eq self sdk Hh). by rewrite Hn.
Qed.

(** C9.  The operations named [m] number one for each time the name is
    enumerated and each category that matches it: a name matching two
    enabled categories is there twice. *)
Theorem one_operation_per_matching_category (self : t) (sdk : sdk_object)
    (cc : CrudControls.t) (ops : list AnySDKTool.t) (m : string) :
  client self !! "client" = Some sdk ->
  crud_controls self = Some cc ->
  _build_operations self = Return ops ->
  length (List.filter (fun op => String.eqb (AnySDKTool.name op) m) ops) =
    count_occ string_dec (public_names sdk) m * length (classify cc m) /\
  (In m (public_names sdk) -> 2 <= length (classify cc m) ->
   exists op pre mid post,
     AnySDKTool.name op = m /\ ops = pre ++ op :: mid ++ op :: post).
Proof.
  intros Hh Hp Hb.
  destruct (build_operations_returns self sdk ops Hh Hb) as [Hdoc ->].
  split.
  - by rewrite (count_named self sdk m _ Hdoc), Hp.
  - intros Hin Hlen.
    apply in_split in Hin as (l1 & l2 & Hsplit). rewrite Hsplit.
    rewrite flat_map_app. cbn [flat_map].
    assert (has_doc sdk m = true) as Hm.
    { eapply forallb_forall in Hdoc; [done|]. rewrite Hsplit.
      apply in_elt. }
    unfold has_doc in Hm. unfold tools_for at 2. rewrite Hp. cbn [matched].
    destruct (find_attr sdk m) as [a|]; [|done].
    destruct (attr_doc a) as [d|]; [|done].
    destruct (classify cc m) as [|c1 [|c2 l]]; simpl in Hlen; [lia..|].
    exists (tool (client self) m d), (flat_map (tools_for self sdk) l1), [],
      (map (fun _ => tool (client self) m d) l ++
       flat_map (tools_for self sdk) l2).
    split; reflexivity.
Qed.

Lemma one_operation_per_matching_category_witness :
  length (List.filter
            (fun op => String.eqb (AnySDKTool.name op) "get_and_update_status")
            [tool status_handle "get_and_update_status" "Refresh the status.";
             tool status_handle "get_and_update_status" "Refresh the status."]) =
    count_occ string_dec (public_names status_sdk) "get_and_update_status" *
    length (classify read_update_policy "get_and_update_status") /\
  exists op pre mid post,
    AnySDKTool.name op = "get_and_update_status" /\
    [tool status_handle "get_and_update_status" "Refresh the status.";
     tool status_handle "get_and_update_status" "Refresh the status."] =
    pre ++ op :: mid ++ op :: post.
Proof.
  destruct (one_operation_per_matching_category
              (wrapper status_handle (Some read_update_policy)) status_sdk
              read_update_policy
              [tool status_handle "get_and_update_status" "Refresh the status.";
               tool status_handle "get_and_update_status" "Refresh the status."]
              "get_and_update_status")
    as [Hcount Htwice].
  - reflexivity.
  - reflexivity.
  - vm_compute. reflexivity.
  - split; [exact Hcount|]. apply Htwice.
    + left. reflexivity.
    + apply le_n.
Defined.
End CatalogClaims.

(** ** Claims about [_run] *)

Section RunClaims.
Import AnySDKTool.

Variable loads : string -> option pyval.
Variable dumps : pyval -> outcome string.

Lemma run_resolved (self : t) (tool_input : pyval) (sdk : sdk_object)
    (func : attribute) :
  client self !! "client" = Some sdk ->
  find_attr sdk (name self) = Some func ->
  _run loads dumps self tool_input =
    try_except
      (result ← call_kwargs func (resolve_params loads tool_input); dumps result)
      is_AttributeError
      (Return ("Invalid function name: " +:+ name self)).
Proof.
  intros Hh Hf. unfold _run, subscript, getattr. by rewrite Hh, bind_Return, Hf.
Qed.

(** Every exception of the call other than [AttributeError] reaches the
    caller. *)
Lemma run_propagates (self : t) (tool_input : pyval) (sdk : sdk_object)
    (func : attribute) (e : exn) :
  client self !! "client" = Some sdk ->
  find_attr sdk (name self) = Some func ->
  call_kwargs func (resolve_params loads tool_input) = Raise e ->
  is_AttributeError e = false ->
  _run loads dumps self tool_input = Raise e.
Proof.
  intros Hh Hf Hc He. rewrite (run_resolved self tool_input sdk func Hh Hf), Hc.
  unfold try_except. simpl. by rewrite He.
Qed.

(** C2.  When the name of the operation is no attribute of the client,
    [_run] returns the message with that name and raises nothing,
    whatever the input. *)
Theorem run_invalid_function_name (self : t) (tool_input : pyval)
    (sdk : sdk_object) :
  client self !! "client" = Some sdk ->
  find_attr sdk (name self) = None ->
  _run loads dumps self tool_input =
    Return ("Invalid function name: " +:+ name self).
Proof.
  intros Hh Hf. unfold _run, subscript, getattr. by rewrite Hh, bind_Return, Hf.
Qed.

(** C3, at the failing input: the name resolves, the call raises
    [AttributeError] from inside, and [_run] answers with the message for
    an invalid name instead of letting the exception through. *)
Theorem run_swallows_inner_attribute_error (kwargs : list (string * pyval)) :
  _run loads dumps (tool broken_handle "get_widget" "Get a widget.")
    (PyDict kwargs) =
  Return "Invalid function name: get_widget".
Proof. reflexivity. Qed.

End RunClaims.

Lemma run_propagates_witness :
  AnySDKTool._run Json.loads json_dumps
    (tool failing_handle "get_widget" "Get a widget.") (PyStr "{}") =
  Raise (OtherError "ConnectionError").
Proof.
  apply (run_propagates Json.loads json_dumps _ _ failing_sdk
           (method (Some "Get a widget.")
              (fun _ => Raise (OtherError "ConnectionError"))));
    reflexivity.
Defined.

Lemma run_invalid_function_name_witness :
  AnySDKTool._run Json.loads json_dumps
    (tool widget_handle "delete_widget" "Delete a widget.") (PyStr "{}") =
  Return "Invalid function name: delete_widget".
Proof.
  apply (run_invalid_function_name Json.loads json_dumps
           (tool widget_handle "delete_widget" "Delete a widget.") (PyStr "{}")
           widget_sdk); reflexivity.
Defined.


(** ** Claims about the policy *)

Section PolicyClaims.
Import CrudControls.

Lemma split_comma_Return (v w : pyval) :
  split_comma v = Return w ->
  exists s, v = PyStr s /\ w = PyList (map PyStr (PyString.split "," s)).
Proof. destruct v; try discriminate. intros [= <-]. eauto. Qed.

Lemma bind_Return_inv {A B} (m : outcome A) (k : A -> outcome B) (b : B) :
  (m ≫= k) = Return b -> exists a, m = Return a /\ k a = Return b.
Proof. destruct m as [a|e]; [eauto | discriminate]. Qed.

(** Whatever the lookup of a field gives, a validation that returns has
    put the comma-separated pieces of a string in each list field. *)
Lemma validate_environment_lists
    (lookup_field : gmap string pyval -> string -> string -> pyval -> outcome pyval)
    (values values' : gmap string pyval) (key : string) :
  validate_environment lookup_field values = Return values' ->
  In key list_fields ->
  exists s, values' !! key = Some (PyList (map PyStr (PyString.split "," s))).
Proof.
  unfold validate_environment. intros H Hkey.
  repeat (apply bind_Return_inv in H as (? & ? & H)).
  repeat match goal with
         | E : split_comma _ = Return _ |- _ =>
             apply split_comma_Return in E as (? & -> & ->)
         end.
  injection H as <-.
  unfold list_fields in Hkey. simpl in Hkey.
  destruct Hkey as [<-|[<-|[<-|[<-|[]]]]]; eexists; by simplify_map_eq.
Qed.

Lemma lookup_splittable (environ : gmap string string)
    (values : gmap string pyval) (key env_key : string) (default : string) :
  splittable values key = true ->
  exists s, get_from_dict_or_env environ values key env_key (PyStr default) =
            Return (PyStr s) /\
            (forall s0, values !! key = Some (PyStr s0) -> s0 <> "" -> s = s0) /\
            ((forall v, values !! key = Some v -> truthy v = false) ->
             s = match environ !! env_key with
                 | Some (String c t) => String c t
                 | _ => default
                 end).
Proof.
  unfold splittable, get_from_dict_or_env. intros H.
  destruct (values !! key) as [v|].
  - destruct (truthy v) eqn:Hv.
    + destruct v; try discriminate. exists s. split_and!; [done | | ].
      * by intros ? [= <-].
      * intros Hf. specialize (Hf _ eq_refl). congruence.
    + destruct (environ !! env_key) as [[|c t]|]; eexists;
        (split_and!; [reflexivity | | done]); intros s0 [= ->] Hne;
        simpl in Hv; apply negb_false_iff, String.eqb_eq in Hv; done.
  - destruct (environ !! env_key) as [[|c t]|]; eexists;
      (split_and!; [reflexivity | by intros ? [=] | done]).
Qed.

Lemma lookup_gate (environ : gmap string string)
    (values : gmap string pyval) (key env_key : string) (default : bool) :
  exists v, get_from_dict_or_env environ values key env_key (PyBool default) =
            Return v.
Proof.
  unfold get_from_dict_or_env.
  destruct (values !! key) as [v|]; [destruct (truthy v)|];
    try (destruct (environ !! env_key) as [[|c s]|]); by eauto.
Qed.

Lemma splittable_insert (values : gmap string pyval) (k key : string) (v : pyval) :
  k <> key -> splittable (<[k:=v]> values) key = splittable values key.
Proof. intros. unfold splittable. by rewrite lookup_insert_ne. Qed.

Lemma lookup_returns (environ : gmap string string)
    (values : gmap string pyval) (key env_key : string) (default : string) :
  exists v, get_from_dict_or_env environ values key env_key (PyStr default) =
            Return v.
Proof.
  unfold get_from_dict_or_env.
  destruct (values !! key) as [v|]; [destruct (truthy v)|];
    try (destruct (environ !! env_key) as [[|c s]|]); by eauto.
Qed.

Lemma lookup_list (environ : gmap string string)
    (values : gmap string pyval) (key env_key : string) (default x : pyval)
    (l : list pyval) :
  values !! key = Some (PyList (x :: l)) ->
  get_from_dict_or_env environ values key env_key default =
    Return (PyList (x :: l)).
Proof. intros H. unfold get_from_dict_or_env. by rewrite H. Qed.

(** One field of the validator when some list field holds a list: the
    field with the list makes [split] raise, a field before it raises or
    goes on. *)
Ltac reject_field environ :=
  match goal with
  | |- context [get_from_dict_or_env environ ?m ?k ?e (PyBool ?d)] =>
      let g := fresh "g" in
      let Hg := fresh "Hg" in
      destruct (lookup_gate environ m k e d) as [g Hg];
      rewrite Hg, bind_Return; cbv zeta
  | |- context [get_from_dict_or_env environ ?m ?k ?e (PyStr ?d)] =>
      first
        [ rewrite (lookup_list environ m k e (PyStr d) _ _
                     ltac:(by simplify_map_eq));
          by eexists
        | let v := fresh "v" in
          let Hv := fresh "Hv" in
          destruct (lookup_returns environ m k e d) as [v Hv];
          rewrite Hv, bind_Return;
          destruct (split_comma v); [rewrite bind_Return; cbv zeta | by eexists] ]
  end.

(** One field of the validator: the lookup returns, a list field gives a
    string, and the string is the override when there is one. *)
Ltac resolve_field environ Hs :=
  match goal with
  | |- context [get_from_dict_or_env environ ?m ?k ?e (PyBool ?d)] =>
      let g := fresh "g" in
      let Hg := fresh "Hg" in
      destruct (lookup_gate environ m k e d) as [g Hg];
      rewrite Hg, bind_Return; cbv zeta
  | |- context [get_from_dict_or_env environ ?m ?k ?e (PyStr ?d)] =>
      let s := fresh "s" in
      let Hl := fresh "Hl" in
      let Ho := fresh "Ho" in
      let Hf := fresh "Hf" in
      destruct (lookup_splittable environ m k e d) as (s & Hl & Ho & Hf);
      [ rewrite !splittable_insert by done; apply Hs;
        unfold list_fields; simpl; tauto
      | rewrite ?lookup_insert_ne in Ho, Hf by done;
        rewrite Hl, bind_Return; cbn [split_comma];
        rewrite bind_Return; cbv zeta ]
  end.

(** C8, as the code has it.  A validation that returns leaves in each
    list field the pieces between the commas of one string, at least one
    piece; it does return when every list field of the configuration is
    left out, false or a string, and the string that is split is then the
    override when it is not empty, the environment variable or the default
    when there is none or an empty one; and it raises when a list field
    holds a list. *)
Theorem keyword_lists_after_validation :
  (forall lookup_field values values' key,
     validate_environment lookup_field values = Return values' ->
     In key list_fields ->
     exists s, values' !! key = Some (PyList (map PyStr (PyString.split "," s))) /\
               PyString.split "," s <> []) /\
  (forall environ values,
     (forall key, In key list_fields -> splittable values key = true) ->
     exists values',
       validate_environment (get_from_dict_or_env environ) values = Return values' /\
       forall key, In key list_fields ->
         exists s,
           values' !! key = Some (PyList (map PyStr (PyString.split "," s))) /\
           (forall s0, values !! key = Some (PyStr s0) -> s0 <> "" -> s = s0) /\
           ((forall v, values !! key = Some v -> truthy v = false) ->
            s = fallback_text environ key)) /\
  (forall environ values key x l,
     In key list_fields ->
     values !! key = Some (PyList (x :: l)) ->
     exists e,
       validate_environment (get_from_dict_or_env environ) values = Raise e).
Proof.
  split_and!.
  - intros lookup_field values values' key H Hkey.
    destruct (validate_environment_lists _ _ _ _ H Hkey) as [s Hs].
    exists s. split; [done | apply split_nonempty].
  - intros environ values Hs. unfold validate_environment.
    repeat resolve_field environ Hs.
    eexists. split; [reflexivity|].
    intros key Hkey. unfold list_fields in Hkey. simpl in Hkey.
    destruct Hkey as [<-|[<-|[<-|[<-|[]]]]];
      (eexists; split_and!; [by simplify_map_eq | done | done]).
  - intros environ values key x l Hkey Hlist. unfold validate_environment.
    unfold list_fields in Hkey. simpl in Hkey.
    destruct Hkey as [<-|[<-|[<-|[<-|[]]]]]; repeat reject_field environ.
Qed.

Lemma keyword_lists_after_validation_witness :
  exists values',
    validate_environment (get_from_dict_or_env ∅) string_override = Return values' /\
    forall key, In key list_fields ->
      exists s,
        values' !! key = Some (PyList (map PyStr (PyString.split "," s))) /\
        (forall s0, string_override !! key = Some (PyStr s0) -> s0 <> "" -> s = s0) /\
        ((forall v, string_override !! key = Some v -> truthy v = false) ->
         s = fallback_text ∅ key).
Proof.
  apply (proj1 (proj2 keyword_lists_after_validation) ∅ string_override).
  intros key Hkey. unfold list_fields in Hkey. simpl in Hkey.
  destruct Hkey as [<-|[<-|[<-|[<-|[]]]]]; reflexivity.
Defined.

(** C8, as the claim has it, fails: an override given as a list makes the
    validator raise where the same keywords in a string are accepted, and
    an empty override leaves the default keywords, not an empty
    sequence. *)
Lemma keyword_list_override_counterexample :
  validate_environment (get_from_dict_or_env ∅) list_override =
    Raise AttributeError /\
  (values' ← validate_environment (get_from_dict_or_env ∅) string_override;
   mret (values' !! "create_list")) =
    Return (Some (PyList [PyStr "make"; PyStr "add"])) /\
  (values' ← validate_environment (get_from_dict_or_env ∅) empty_override;
   mret (values' !! "create_list")) =
    Return (Some (PyList [PyStr "create"])).
Proof. split_and!; vm_compute; reflexivity. Qed.
End PolicyClaims.

(** ** The JSON round trip *)

Section JsonFacts.
Import Json.

Lemma pyval_nested_ind (P : pyval -> Prop) :
  P PyNone ->
  (forall b, P (PyBool b)) ->
  (forall z, P (PyInt z)) ->
  (forall s, P (PyStr s)) ->
  (forall l, Forall P l -> P (PyList l)) ->
  (forall l, Forall P l -> P (PyTuple l)) ->
  (forall d, Forall (fun kv => P (snd kv)) d -> P (PyDict d)) ->
  (forall r, P (PyObj r)) ->
  forall v, P v.
Proof.
  intros HNone HBool HInt HStr HList HTuple HDict HObj. fix IH 1.
  intros [| b | z | s | l | l | d | r];
    [apply HNone | apply HBool | apply HInt | apply HStr | | | | apply HObj].
  - apply HList. induction l as [|x l IHl]; constructor; [apply IH | apply IHl].
  - apply HTuple. induction l as [|x l IHl]; constructor; [apply IH | apply IHl].
  - apply HDict. induction d as [|[k x] d IHd]; constructor; [apply IH | apply IHd].
Qed.

Lemma stringify_native (v : pyval) : json_native v = true -> stringify v = v.
Proof.
  induction v as [| b | z | s | l IH | l IH | d IH | r] using pyval_nested_ind;
    simpl; try done.
  - intros H. f_equal. induction IH as [|x l Hx _ IHl]; [done|].
    simpl in H. apply andb_true_iff in H as [H1 H2].
    simpl. by rewrite Hx, IHl.
  - intros H. f_equal. induction IH as [|[k x] d Hx _ IHd]; [done|].
    simpl in H. apply andb_true_iff in H as [H1 H2].
    simpl in *. by rewrite Hx, IHd.
Qed.


(** *** Strings *)

Lemma scan_string_escape_char (c : ascii) (t : string) :
  scan_string (escape_char c +:+ t) = prepend c (scan_string t).
Proof.
  destruct c as [[|] [|] [|] [|] [|] [|] [|] [|]]; reflexivity.
Qed.

Lemma scan_string_escape (s rest : string) :
  scan_string (escape s +:+ String quote rest) = Some (s, rest).
Proof.
  induction s as [|c s IH]; [reflexivity|].
  cbn [escape]. by rewrite string_app_assoc, scan_string_escape_char, IH.
Qed.

Lemma scan_once_string (fuel : nat) (s rest : string) :
  scan_once (S fuel) (encode_string s +:+ rest) = Some (PyStr s, rest).
Proof.
  unfold encode_string. rewrite string_app_cons, string_app_assoc.
  cbn [scan_once]. rewrite Ascii.eqb_refl.
  change (String quote "" +:+ rest) with (String quote rest).
  by rewrite scan_string_escape.
Qed.

(** *** Integers *)

Lemma terminates_number (rest : string) :
  terminates rest = true ->
  starts_fraction rest = false /\
  match rest with String c _ => is_digit c = false | EmptyString => True end.
Proof.
  destruct rest as [|c rest]; [done|]. unfold terminates.
  rewrite !orb_true_iff, !Ascii.eqb_eq. intros [[->| ->]| ->]; by destruct rest.
Qed.

Lemma span_digits_uint (u : Decimal.uint) (rest : string) :
  match rest with String c _ => is_digit c = false | EmptyString => True end ->
  span_digits (NilEmpty.string_of_uint u +:+ rest) =
    (NilEmpty.string_of_uint u, rest).
Proof.
  intros Hrest. induction u; cbn [NilEmpty.string_of_uint];
    rewrite ?string_app_cons; cbn [span_digits];
    try (change (is_digit _) with true; cbv iota; by rewrite IHu).
  rewrite string_app_nil_l. destruct rest as [|c rest]; [done|].
  cbn [span_digits]. by rewrite Hrest.
Qed.

Lemma to_uint_no_leading_zero (p : positive) (u : Decimal.uint) :
  Pos.to_uint p <> Decimal.D0 u.
Proof.
  intros H.
  pose proof (DecimalPos.Unsigned.to_of (Pos.to_uint p)) as Hn.
  rewrite DecimalPos.Unsigned.of_to in Hn.
  change (N.to_uint (N.pos p)) with (Pos.to_uint p) in Hn.
  rewrite H, DecimalFacts.unorm_D0 in Hn.
  assert (u = Decimal.Nil \/ u <> Decimal.Nil) as [->|Hne]
    by (destruct u; (by left) || (by right)).
  - by apply (DecimalPos.Unsigned.to_uint_nonzero p).
  - pose proof (DecimalFacts.nb_digits_unorm u Hne) as Hle.
    rewrite <- Hn in Hle. cbn [Decimal.nb_digits] in Hle. lia.
Qed.

Lemma scan_natural_to_uint (p : positive) (rest : string) :
  match rest with String c _ => is_digit c = false | EmptyString => True end ->
  scan_natural (NilEmpty.string_of_uint (Pos.to_uint p) +:+ rest) =
    Some (NilEmpty.string_of_uint (Pos.to_uint p), rest).
Proof.
  intros Hrest. pose proof (span_digits_uint (Pos.to_uint p) rest Hrest) as Hs.
  pose proof (to_uint_no_leading_zero p) as Hz.
  pose proof (DecimalPos.Unsigned.to_uint_nonnil p) as Hn.
  destruct (Pos.to_uint p) as [|u|u|u|u|u|u|u|u|u|u];
    [done | by destruct (Hz u) | ..];
    cbn [NilEmpty.string_of_uint] in *; rewrite string_app_cons in *;
    unfold scan_natural; by rewrite <- Hs.
Qed.

Lemma scan_number_pos (s ds rest : string) (u : Decimal.uint) :
  match s with String c _ => Ascii.eqb c "-" = false | EmptyString => True end ->
  scan_natural s = Some (ds, rest) ->
  starts_fraction rest = false ->
  NilEmpty.uint_of_string ds = Some u ->
  scan_number s = Some (PyInt (Z.of_int (Decimal.Pos u)), rest).
Proof.
  intros Hs Hn Hf Hu. unfold scan_number.
  destruct s as [|c s]; [discriminate|]. rewrite Hs, Hn.
  cbn [mbind option_bind]. rewrite Hf, Hu. reflexivity.
Qed.

Lemma scan_number_neg (s ds rest : string) (u : Decimal.uint) :
  scan_natural s = Some (ds, rest) ->
  starts_fraction rest = false ->
  NilEmpty.uint_of_string ds = Some u ->
  scan_number (String "-" s) = Some (PyInt (Z.of_int (Decimal.Neg u)), rest).
Proof.
  intros Hn Hf Hu. unfold scan_number.
  change (Ascii.eqb "-" "-") with true. cbv iota. rewrite Hn.
  cbn [mbind option_bind]. rewrite Hf, Hu. reflexivity.
Qed.

Lemma string_of_uint_to_uint (p : positive) :
  NilZero.string_of_uint (Pos.to_uint p) = NilEmpty.string_of_uint (Pos.to_uint p).
Proof.
  pose proof (DecimalPos.Unsigned.to_uint_nonnil p).
  unfold NilZero.string_of_uint. by destruct (Pos.to_uint p).
Qed.

Lemma to_uint_head (p : positive) :
  exists c r, NilEmpty.string_of_uint (Pos.to_uint p) = String c r /\
              is_digit c = true.
Proof.
  pose proof (DecimalPos.Unsigned.to_uint_nonnil p).
  destruct (Pos.to_uint p); [done|..]; cbn [NilEmpty.string_of_uint];
    by eexists _, _.
Qed.

Lemma scan_number_int (z : Z) (rest : string) :
  terminates rest = true ->
  scan_number (encode_int z +:+ rest) = Some (PyInt z, rest).
Proof.
  intros [Hf Hd]%terminates_number. unfold encode_int.
  rewrite <- (DecimalZ.of_to z) at 2.
  destruct z as [|p|p]; cbn [Z.to_int NilZero.string_of_int].
  - by apply (scan_number_pos _ "0").
  - rewrite string_of_uint_to_uint.
    apply (scan_number_pos _ (NilEmpty.string_of_uint (Pos.to_uint p))).
    + destruct (to_uint_head p) as (c & r & -> & Hc). rewrite string_app_cons.
      destruct c as [[|] [|] [|] [|] [|] [|] [|] [|]]; try discriminate Hc; done.
    + by apply scan_natural_to_uint.
    + done.
    + apply NilEmpty.usu.
  - rewrite string_of_uint_to_uint, string_app_cons.
    apply (scan_number_neg _ (NilEmpty.string_of_uint (Pos.to_uint p))).
    + by apply scan_natural_to_uint.
    + done.
    + apply NilEmpty.usu.
Qed.

Lemma encode_int_head (z : Z) :
  exists c r, encode_int z = String c r /\ (is_digit c = true \/ c = "-"%char).
Proof.
  unfold encode_int. destruct z as [|p|p]; cbn [Z.to_int NilZero.string_of_int].
  - exists "0"%char, "". split; [done | by left].
  - rewrite string_of_uint_to_uint.
    destruct (to_uint_head p) as (c & r & -> & Hc). exists c, r. split; [done | by left].
  - eexists _, _. split; [reflexivity | by right].
Qed.

Lemma scan_once_int (fuel : nat) (z : Z) (rest : string) :
  terminates rest = true ->
  scan_once (S fuel) (encode_int z +:+ rest) = Some (PyInt z, rest).
Proof.
  intros Hrest. rewrite <- (scan_number_int z rest Hrest).
  destruct (encode_int_head z) as (c & r & -> & Hc).
  rewrite string_app_cons. cbn [scan_once].
  assert (Ascii.eqb c quote = false /\ Ascii.eqb c "{" = false /\
          Ascii.eqb c "[" = false /\ Ascii.eqb c "n" = false /\
          Ascii.eqb c "t" = false /\ Ascii.eqb c "f" = false)
    as (-> & -> & -> & -> & -> & ->); [|done].
  destruct Hc as [Hc| ->]; [|done].
  destruct c as [[|] [|] [|] [|] [|] [|] [|] [|]]; try discriminate Hc; done.
Qed.

(** *** Lists and dicts *)

Lemma skip_ws_head (c : ascii) (r : string) :
  is_ws c = false -> skip_ws (String c r) = String c r.
Proof. intros H. cbn [skip_ws]. by rewrite H. Qed.

Lemma dumps_head (v : pyval) :
  exists c r, dumps v = String c r /\ is_ws c = false /\
              Ascii.eqb c "]" = false /\ Ascii.eqb c "}" = false.
Proof.
  destruct v as [| [|] | z | s | l | l | d | repr];
    try (by eexists _, _; split_and!; [reflexivity | done..]).
  destruct (encode_int_head z) as (c & r & E & Hc).
  exists c, r. split; [done|].
  destruct Hc as [Hc| ->]; [|done].
  destruct c as [[|] [|] [|] [|] [|] [|] [|] [|]]; try discriminate Hc; done.
Qed.

Lemma dumps_length_pos (v : pyval) : 0 < String.length (dumps v).
Proof. destruct (dumps_head v) as (c & r & -> & _). simpl. lia. Qed.

Lemma join_cons_cons (sep x : string) (y : string) (l : list string) :
  join sep (x :: y :: l) = x +:+ sep +:+ join sep (y :: l).
Proof. reflexivity. Qed.

Lemma dict_set_fresh (d : list (string * pyval)) (k : string) (v : pyval) :
  existsb (String.eqb k) (map fst d) = false -> dict_set d k v = d ++ [(k, v)].
Proof.
  induction d as [|[k' v'] d IH]; [done|]. cbn [map fst existsb dict_set].
  intros [H1 H2]%orb_false_iff. rewrite String.eqb_sym, H1. by rewrite IH.
Qed.

Lemma dict_of_pairs_distinct (d : list (string * pyval)) :
  distinct (map fst d) = true -> dict_of_pairs d = d.
Proof.
  unfold dict_of_pairs.
  assert (forall acc,
            distinct (map fst (acc ++ d)) = true ->
            fold_left (fun d kv => dict_set d (fst kv) (snd kv)) d acc = acc ++ d)
    as H; [|apply (H [])].
  induction d as [|[k v] d IH]; intros acc Hd; [by rewrite List.app_nil_r|].
  cbn [fold_left fst snd].
  assert (existsb (String.eqb k) (map fst acc) = false) as Hk.
  { clear IH. induction acc as [|[k' v'] acc IHa]; [done|].
    cbn [app map fst distinct existsb] in *.
    apply andb_true_iff in Hd as [Hn Hd]. apply negb_true_iff in Hn.
    rewrite map_app, existsb_app in Hn. cbn [map fst existsb] in Hn.
    apply orb_false_iff in Hn as [_ [Hn _]%orb_false_iff].
    rewrite String.eqb_sym, Hn. by apply IHa. }
  rewrite (dict_set_fresh _ _ _ Hk), IH; rewrite <- List.app_assoc; done.
Qed.

Lemma distinct_stringify (d : list (string * pyval)) :
  map fst (map (fun kv => (fst kv, stringify (snd kv))) d) = map fst d.
Proof. rewrite map_map. by apply map_ext. Qed.

Lemma scan_elements_ok (l : list pyval) :
  Forall decodes l -> l <> [] -> forallb well_formed l = true ->
  forall fuel rest,
    String.length (join ", " (map dumps l)) < fuel ->
    scan_elements fuel (join ", " (map dumps l) +:+ String "]" rest) =
      Some (map stringify l, rest).
Proof.
  induction 1 as [|x l Hx Hl IH]; [done|]. intros _ Hwf fuel rest Hfuel.
  cbn [forallb] in Hwf. apply andb_true_iff in Hwf as [Hwx Hwl].
  destruct fuel as [|fuel]; [lia|]. cbn [scan_elements].
  destruct l as [|y l].
  - cbn [map join] in *.
    rewrite (Hx fuel (String "]" rest)) by (done || lia).
    reflexivity.
  - cbn [map] in *. rewrite join_cons_cons in *.
    rewrite !string_app_length in Hfuel. cbn [String.length] in Hfuel.
    rewrite !string_app_assoc.
    rewrite (Hx fuel) by (done || lia).
    cbn [mbind option_bind]. rewrite string_app_cons.
    rewrite skip_ws_head by done.
    change (Ascii.eqb "," ",") with true. cbv iota.
    rewrite string_app_cons. cbn [skip_ws].
    change (is_ws " ") with true. cbv iota. rewrite string_app_nil_l.
    pose proof (dumps_length_pos x).
    assert (skip_ws (join ", " (dumps y :: map dumps l) +:+ String "]" rest) =
            join ", " (dumps y :: map dumps l) +:+ String "]" rest) as ->.
    { destruct (dumps_head y) as (c & r & E & Hc & _).
      destruct l; cbn [map join]; rewrite E, ?string_app_cons;
        by apply skip_ws_head. }
    rewrite IH by (done || lia). reflexivity.
Qed.

Lemma member_text_eq (k : string) (v : pyval) (tail : string) :
  member_text (k, v) +:+ tail =
  String quote (escape k +:+ String quote (String ":" (String " " (dumps v +:+ tail)))).
Proof.
  unfold member_text, encode_string. cbn [fst snd].
  rewrite !string_app_cons, !string_app_assoc. reflexivity.
Qed.

Lemma member_text_length (k : string) (v : pyval) :
  String.length (dumps v) + 4 <= String.length (member_text (k, v)).
Proof.
  unfold member_text, encode_string. cbn [fst snd].
  rewrite !string_app_length. cbn [String.length].
  rewrite !string_app_length. cbn [String.length]. lia.
Qed.

Lemma scan_members_ok (d : list (string * pyval)) :
  Forall (fun kv => decodes (snd kv)) d -> d <> [] ->
  forallb (fun kv => well_formed (snd kv)) d = true ->
  forall fuel rest,
    String.length (join ", " (map member_text d)) < fuel ->
    scan_members fuel (join ", " (map member_text d) +:+ String "}" rest) =
      Some (map (fun kv => (fst kv, stringify (snd kv))) d, rest).
Proof.
  induction 1 as [|[k x] d Hx Hd IH]; [done|]. intros _ Hwf fuel rest Hfuel.
  cbn [forallb snd] in Hwf. apply andb_true_iff in Hwf as [Hwx Hwd].
  cbn [snd] in Hx.
  destruct fuel as [|fuel]; [lia|].
  pose proof (member_text_length k x) as Hlen.
  destruct d as [|[k' y] d].
  - cbn [map join] in *. rewrite member_text_eq.
    cbn [scan_members]. rewrite Ascii.eqb_refl, scan_string_escape.
    cbn [mbind option_bind]. rewrite skip_ws_head by done.
    change (Ascii.eqb ":" ":") with true. cbv iota.
    cbn [skip_ws]. change (is_ws " ") with true. cbv iota.
    assert (skip_ws (dumps x +:+ String "}" rest) = dumps x +:+ String "}" rest)
      as ->.
    { destruct (dumps_head x) as (c & r & -> & Hc & _).
      rewrite string_app_cons. by apply skip_ws_head. }
    rewrite (Hx fuel (String "}" rest)) by (done || lia).
    reflexivity.
  - cbn [map] in *. rewrite join_cons_cons in *.
    rewrite !string_app_length in Hfuel. cbn [String.length] in Hfuel.
    rewrite !string_app_assoc, member_text_eq.
    cbn [scan_members]. rewrite Ascii.eqb_refl, scan_string_escape.
    cbn [mbind option_bind]. rewrite skip_ws_head by done.
    change (Ascii.eqb ":" ":") with true. cbv iota.
    cbn [skip_ws]. change (is_ws " ") with true. cbv iota.
    set (tail := ", " +:+ join ", " (member_text (k', y) :: map member_text d)
                   +:+ String "}" rest).
    assert (skip_ws (dumps x +:+ tail) = dumps x +:+ tail) as ->.
    { destruct (dumps_head x) as (c & r & -> & Hc & _).
      rewrite string_app_cons. by apply skip_ws_head. }
    rewrite (Hx fuel tail) by (done || lia).
    cbn [mbind option_bind]. unfold tail. rewrite string_app_cons.
    rewrite skip_ws_head by done.
    change (Ascii.eqb "," ",") with true. cbv iota.
    rewrite string_app_cons. cbn [skip_ws].
    change (is_ws " ") with true. cbv iota. rewrite string_app_nil_l.
    assert (skip_ws (join ", " (member_text (k', y) :: map member_text d)
                       +:+ String "}" rest) =
            join ", " (member_text (k', y) :: map member_text d)
              +:+ String "}" rest) as ->.
    { destruct d; cbn [map join]; rewrite ?string_app_assoc, member_text_eq;
        by apply skip_ws_head. }
    rewrite IH by (done || lia). reflexivity.
Qed.

Lemma join_head (l : list pyval) :
  l <> [] ->
  exists c r, join ", " (map dumps l) = String c r /\ is_ws c = false /\
              Ascii.eqb c "]" = false.
Proof.
  destruct l as [|x l]; [done|]. intros _.
  destruct (dumps_head x) as (c & r & E & Hc & Hb & _).
  destruct l; cbn [map join]; rewrite E, ?string_app_cons; by eexists _, _.
Qed.

Lemma join_members_head (d : list (string * pyval)) :
  d <> [] ->
  exists r, join ", " (map member_text d) = String quote r.
Proof.
  destruct d as [|[k x] d]; [done|]. intros _.
  destruct d; cbn [map join];
    [rewrite <- (string_app_nil_r (member_text _)) |];
    rewrite member_text_eq; by eexists.
Qed.

(** Every value is decoded from its own text. *)
Lemma decodes_all (v : pyval) : decodes v.
Proof.
  induction v as [| b | z | s | l IH | l IH | d IH | repr] using pyval_nested_ind;
    intros fuel rest Hfuel Hrest Hwf;
    (destruct fuel as [|fuel];
     [match type of Hfuel with
      | String.length (dumps ?v) <= _ => pose proof (dumps_length_pos v)
      end; lia|]).
  - reflexivity.
  - by destruct b.
  - by apply scan_once_int.
  - apply scan_once_string.
  - cbn [dumps stringify well_formed] in *.
    rewrite !string_app_cons, string_app_nil_l, string_app_assoc.
    change ("]" +:+ rest) with (String "]" rest).
    destruct l as [|x l]; [reflexivity|].
    destruct (join_head (x :: l)) as (c & r & E & Hc & Hb); [done|].
    cbn [scan_once]. change (Ascii.eqb "[" quote) with false.
    change (Ascii.eqb "[" "{") with false. change (Ascii.eqb "[" "[") with true.
    cbv iota. rewrite E, string_app_cons, skip_ws_head, Hb by done.
    rewrite <- string_app_cons, <- E.
    rewrite scan_elements_ok; [reflexivity | done | done | done |].
    rewrite string_app_cons, string_app_nil_l in Hfuel.
    cbn [String.length] in Hfuel. rewrite string_app_length in Hfuel.
    cbn [String.length] in Hfuel. lia.
  - cbn [dumps stringify well_formed] in *.
    rewrite !string_app_cons, string_app_nil_l, string_app_assoc.
    change ("]" +:+ rest) with (String "]" rest).
    destruct l as [|x l]; [reflexivity|].
    destruct (join_head (x :: l)) as (c & r & E & Hc & Hb); [done|].
    cbn [scan_once]. change (Ascii.eqb "[" quote) with false.
    change (Ascii.eqb "[" "{") with false. change (Ascii.eqb "[" "[") with true.
    cbv iota. rewrite E, string_app_cons, skip_ws_head, Hb by done.
    rewrite <- string_app_cons, <- E.
    rewrite scan_elements_ok; [reflexivity | done | done | done |].
    rewrite string_app_cons, string_app_nil_l in Hfuel.
    cbn [String.length] in Hfuel. rewrite string_app_length in Hfuel.
    cbn [String.length] in Hfuel. lia.
  - cbn [dumps stringify well_formed] in *.
    apply andb_true_iff in Hwf as [Hkeys Hwf].
    change (map (fun kv => encode_string (fst kv) +:+ ": " +:+ dumps (snd kv)) d)
      with (map member_text d) in *.
    rewrite !string_app_cons, string_app_nil_l, string_app_assoc.
    change ("}" +:+ rest) with (String "}" rest).
    destruct d as [|kv d]; [reflexivity|].
    destruct (join_members_head (kv :: d)) as (r & E); [done|].
    cbn [scan_once]. change (Ascii.eqb "{" quote) with false.
    change (Ascii.eqb "{" "{") with true.
    cbv iota. rewrite E, string_app_cons, skip_ws_head by done.
    change (Ascii.eqb quote "}") with false. cbv iota.
    rewrite <- string_app_cons, <- E.
    rewrite scan_members_ok; [| done | done | done |].
    + cbn [mbind option_bind].
      rewrite dict_of_pairs_distinct; [reflexivity|].
      by rewrite distinct_stringify.
    + rewrite string_app_cons, string_app_nil_l in Hfuel.
      cbn [String.length] in Hfuel. rewrite string_app_length in Hfuel.
      cbn [String.length] in Hfuel. lia.
  - apply scan_once_string.
Qed.

(** Decoding the text of a value gives the value, its objects turned to
    strings. *)
Lemma loads_dumps (v : pyval) :
  well_formed v = true -> loads (dumps v) = Some (stringify v).
Proof.
  intros Hwf. unfold loads.
  assert (skip_ws (dumps v) = dumps v) as ->.
  { destruct (dumps_head v) as (c & r & -> & Hc & _). by apply skip_ws_head. }
  rewrite <- (string_app_nil_r (dumps v)) at 2.
  rewrite (decodes_all v) by (done || lia). reflexivity.
Qed.



End JsonFacts.

(** * Further properties *)

(** ** The catalog *)

Section CatalogProperties.
Import AnySdkWrapper.

Lemma map_const_repeat {A B} (y : B) (l : list A) :
  map (fun _ => y) l = repeat y (length l).
Proof. induction l as [|x l IH]; [done|]. simpl. by rewrite IH. Qed.

Lemma names_of_tools (self : t) (sdk : sdk_object) (names : list string) :
  forallb (has_doc sdk) names = true ->
  map AnySDKTool.name (flat_map (tools_for self sdk) names) =
  flat_map (fun f => repeat f (length (matched (crud_controls self) f))) names.
Proof.
  induction names as [|f names IH]; [done|].
  cbn [forallb flat_map]. intros [Hf Hrest]%andb_true_iff.
  by rewrite map_app, tools_for_names, map_const_repeat, IH.
Qed.

Lemma name_in_operations (self : t) (sdk : sdk_object)
    (ops : list AnySDKTool.t) (m : string) :
  client self !! "client" = Some sdk ->
  _build_operations self = Return ops ->
  (In m (map AnySDKTool.name ops) <->
   In m (public_names sdk) /\ matched (crud_controls self) m <> []).
Proof.
  intros Hh Hb.
  destruct (build_operations_returns self sdk ops Hh Hb) as [Hdoc ->].
  rewrite names_of_tools by done. rewrite in_flat_map. split.
  - intros (f & Hf & Hin). apply repeat_spec in Hin as Heq. subst f.
    split; [done|]. intros E. by rewrite E in Hin.
  - intros [Hf Hne]. exists m. split; [done|].
    destruct (matched (crud_controls self) m); [done | by left].
Qed.

Lemma tool_in_catalog (self : t) (sdk : sdk_object)
    (ops : list AnySDKTool.t) (op : AnySDKTool.t) :
  client self !! "client" = Some sdk ->
  _build_operations self = Return ops ->
  In op ops ->
  AnySDKTool.client op = client self /\
  PyString.startswith (AnySDKTool.name op) "_" = false /\
  exists a body,
    find_attr sdk (AnySDKTool.name op) = Some a /\
    attr_call a = Some body /\
    attr_doc a = Some (AnySDKTool.description op).
Proof.
  intros Hh Hb Hin.
  destruct (build_operations_returns self sdk ops Hh Hb) as [_ ->].
  apply in_flat_map in Hin as (f & Hf & Hin).
  apply public_names_iff in Hf as (a & Ha & Hc & Hs).
  unfold tools_for in Hin. rewrite Ha in Hin.
  destruct (attr_doc a) as [d|] eqn:Hd; [|done].
  apply in_map_iff in Hin as (c & <- & _). cbn.
  split_and!; [done..|]. unfold callable in Hc.
  destruct (attr_call a) as [body|] eqn:Hbody; [|done].
  by exists a, body.
Qed.

(** X1.  The names of the built operations are those of the public
    callable attributes in the order of [dir()], each once for every
    category that matches it. *)
Theorem operations_follow_enumeration (self : t) (sdk : sdk_object)
    (ops : list AnySDKTool.t) :
  client self !! "client" = Some sdk ->
  _build_operations self = Return ops ->
  map AnySDKTool.name ops =
  flat_map (fun f => repeat f (length (matched (crud_controls self) f)))
    (List.filter
       (fun f => match find_attr sdk f with
                 | Some a => callable a && negb (PyString.startswith f "_")
                 | None => false
                 end)
       (dir sdk)).
Proof.
  intros Hh Hb.
  destruct (build_operations_returns self sdk ops Hh Hb) as [Hdoc ->].
  by apply names_of_tools.
Qed.

Lemma operations_follow_enumeration_witness :
  map AnySDKTool.name
    [tool widget_handle "create_widget" "Create a widget.";
     tool widget_handle "get_widget" "Get a widget."] =
  flat_map
    (fun f => repeat f (length (matched (Some default_policy) f)))
    (List.filter
       (fun f => match find_attr widget_sdk f with
                 | Some a => callable a && negb (PyString.startswith f "_")
                 | None => false
                 end)
       (dir widget_sdk)).
Proof.
  apply (operations_follow_enumeration
           (wrapper widget_handle (Some default_policy)) widget_sdk).
  - reflexivity.
  - vm_compute. reflexivity.
Defined.

(** X2.  Every tool that a constructed wrapper hands out carries the
    wrapper's client mapping, a name that does not start with an
    underscore and resolves to a callable attribute of the client, and
    that attribute's documentation string as description. *)
Theorem get_tools_well_formed (handle : gmap string sdk_object)
    (policy : option CrudControls.t) (sdk : sdk_object) (w : t)
    (op : AnySDKTool.t) :
  handle !! "client" = Some sdk ->
  init handle policy = Return w ->
  In op (get_tools w) ->
  client w = handle /\ crud_controls w = policy /\
  AnySDKTool.client op = handle /\
  PyString.startswith (AnySDKTool.name op) "_" = false /\
  exists a body,
    find_attr sdk (AnySDKTool.name op) = Some a /\
    attr_call a = Some body /\
    attr_doc a = Some (AnySDKTool.description op).
Proof.
  intros Hh Hinit Hin. unfold init in Hinit.
  destruct (_build_operations _) as [ops|e] eqn:Hb; [|discriminate].
  rewrite bind_Return in Hinit. cbv [mret outcome_ret] in Hinit.
  injection Hinit as <-. cbn [get_tools operations client crud_controls] in *.
  destruct (tool_in_catalog (wrapper handle policy) sdk ops op Hh Hb Hin)
    as (Hc & Hs & Ha).
  by split_and!.
Qed.

Lemma get_tools_well_formed_witness :
  let op := tool widget_handle "get_widget" "Get a widget." in
  AnySDKTool.client op = widget_handle /\
  PyString.startswith (AnySDKTool.name op) "_" = false /\
  exists a body,
    find_attr widget_sdk (AnySDKTool.name op) = Some a /\
    attr_call a = Some body /\
    attr_doc a = Some (AnySDKTool.description op).
Proof.
  intros op.
  apply (get_tools_well_formed widget_handle (Some default_policy) widget_sdk
           {| client := widget_handle;
              operations := [tool widget_handle "create_widget" "Create a widget."; op];
              crud_controls := Some default_policy |} op).
  - reflexivity.
  - vm_compute. reflexivity.
  - right. left. reflexivity.
Defined.

Lemma filter_length_mono {A} (p q : A -> bool) (l : list A) :
  (forall x, p x = true -> q x = true) ->
  length (List.filter p l) <= length (List.filter q l).
Proof.
  intros Hpq. induction l as [|x l IH]; [done|]. simpl.
  destruct (p x) eqn:Hp; [rewrite (Hpq x Hp); simpl; lia|].
  destruct (q x); simpl; lia.
Qed.

Lemma classify_length (cc : CrudControls.t) (f : string) :
  length (classify cc f) <= length (List.filter (gate cc) categories).
Proof.
  apply filter_length_mono. intros c H.
  by apply category_pass_iff in H as [? _].
Qed.

Lemma nodup_flat_repeat (names : list string) (n : string -> nat) :
  List.NoDup names -> (forall f, n f <= 1) ->
  List.NoDup (flat_map (fun f => repeat f (n f)) names).
Proof.
  intros Hnames Hn. induction Hnames as [|x names Hx _ IH]; [constructor|].
  cbn [flat_map]. specialize (Hn x). destruct (n x) as [|[|k]]; [done| |lia].
  cbn [repeat app]. constructor; [|done].
  intros (f & Hf & Hin)%in_flat_map. apply repeat_spec in Hin. congruence.
Qed.

(** X3.  The operations number at most one for each enumerated name and
    enabled gate; and when the listing of the client holds no name twice
    and at most one gate is enabled, no operation name is there twice. *)
Theorem operations_bound (self : t) (sdk : sdk_object) (cc : CrudControls.t)
    (ops : list AnySDKTool.t) :
  client self !! "client" = Some sdk ->
  crud_controls self = Some cc ->
  _build_operations self = Return ops ->
  length ops <=
    length (List.filter (gate cc) categories) * length (public_names sdk)
  /\ (List.NoDup (dir sdk) ->
      length (List.filter (gate cc) categories) <= 1 ->
      List.NoDup (map AnySDKTool.name ops)).
Proof.
  intros Hh Hp Hb.
  destruct (build_operations_returns self sdk ops Hh Hb) as [Hdoc ->].
  split.
  - rewrite <- (length_map AnySDKTool.name).
    rewrite names_of_tools, Hp by done. cbn [matched]. clear Hdoc Hb.
    induction (public_names sdk) as [|f names IH]; [simpl; lia|].
    cbn [flat_map length]. rewrite List.length_app, repeat_length.
    pose proof (classify_length cc f). rewrite Nat.mul_succ_r. lia.
  - intros Hdir Hone. rewrite names_of_tools, Hp by done. cbn [matched].
    apply nodup_flat_repeat.
    + unfold public_names. by apply List.NoDup_filter.
    + intros f. pose proof (classify_length cc f). lia.
Qed.

Lemma operations_bound_witness :
  length [tool widget_handle "create_widget" "Create a widget.";
          tool widget_handle "get_widget" "Get a widget."] <=
    length (List.filter (gate default_policy) categories) *
    length (public_names widget_sdk)
  /\ List.NoDup (map AnySDKTool.name
              [tool widget_handle "create_widget" "Create a widget.";
               tool widget_handle "get_widget" "Get a widget."]).
Proof.
  destruct (operations_bound (wrapper widget_handle (Some default_policy))
              widget_sdk default_policy
              [tool widget_handle "create_widget" "Create a widget.";
               tool widget_handle "get_widget" "Get a widget."])
    as [Hbound Hnames].
  - reflexivity.
  - reflexivity.
  - vm_compute. reflexivity.
  - split; [exact Hbound|]. apply Hnames.
    + repeat (constructor; [simpl; intuition discriminate|]). constructor.
    + vm_compute. lia.
Defined.

Lemma permits_more_spec (cc cc' : CrudControls.t) (c : category) :
  permits_more cc cc' = true ->
  gate cc c = true ->
  gate cc' c = true /\
  forall ws w, keywords cc c = Some ws -> In w ws ->
    exists ws', keywords cc' c = Some ws' /\ In w ws'.
Proof.
  unfold permits_more. rewrite forallb_forall. intros H Hg.
  assert (In c categories) as Hc by (unfold categories; destruct c; simpl; auto).
  specialize (H c Hc). rewrite Hg in H. cbn [implb] in H.
  apply andb_true_iff in H as [Hg' Hk]. split; [done|].
  intros ws w Hws Hw. rewrite Hws in Hk.
  destruct (keywords cc' c) as [ws'|]; [|done]. exists ws'. split; [done|].
  rewrite forallb_forall in Hk. specialize (Hk w Hw).
  apply existsb_exists in Hk as (w' & Hin & ->%String.eqb_eq). done.
Qed.

Lemma classify_mono (cc cc' : CrudControls.t) (m : string) :
  permits_more cc cc' = true -> classify cc m <> [] -> classify cc' m <> [].
Proof.
  intros Hperm Hne. destruct (classify cc m) as [|c l] eqn:E; [done|].
  assert (In c (classify cc m)) as Hc by (rewrite E; by left).
  apply classify_iff in Hc as (Hg & ws & w & Hws & Hw & Hsub).
  destruct (permits_more_spec cc cc' c Hperm Hg) as (Hg' & Hk).
  destruct (Hk ws w Hws Hw) as (ws' & Hws' & Hw').
  assert (In c (classify cc' m)) as Hc'
    by (apply classify_iff; split; [done|]; by exists ws', w).
  intros E'. by rewrite E' in Hc'.
Qed.

(** X4.  Opening more gates or adding keywords never removes an
    operation: what a policy keeps, a policy that permits more keeps. *)
Theorem more_permissive_policy_keeps_operations (self self' : t)
    (sdk : sdk_object) (cc cc' : CrudControls.t)
    (ops ops' : list AnySDKTool.t) (m : string) :
  client self !! "client" = Some sdk ->
  client self' !! "client" = Some sdk ->
  crud_controls self = Some cc ->
  crud_controls self' = Some cc' ->
  permits_more cc cc' = true ->
  _build_operations self = Return ops ->
  _build_operations self' = Return ops' ->
  In m (map AnySDKTool.name ops) ->
  In m (map AnySDKTool.name ops').
Proof.
  intros Hh Hh' Hp Hp' Hperm Hb Hb'.
  rewrite (name_in_operations self sdk ops m Hh Hb).
  rewrite (name_in_operations self' sdk ops' m Hh' Hb').
  rewrite Hp, Hp'. cbn [matched]. intros [Hm Hne].
  split; [done | by eapply classify_mono].
Qed.

Lemma more_permissive_policy_keeps_operations_witness :
  In "get_widget"
    (map AnySDKTool.name
       [tool widget_handle "create_widget" "Create a widget.";
        tool widget_handle "get_widget" "Get a widget."]).
Proof.
  apply (more_permissive_policy_keeps_operations
           (wrapper widget_handle (Some default_policy))
           (wrapper widget_handle (Some read_update_policy))
           widget_sdk default_policy read_update_policy
           [tool widget_handle "create_widget" "Create a widget.";
            tool widget_handle "get_widget" "Get a widget."]).
  - reflexivity.
  - reflexivity.
  - reflexivity.
  - reflexivity.
  - reflexivity.
  - vm_compute. reflexivity.
  - vm_compute. reflexivity.
  - right. left. reflexivity.
Defined.

(** X5.  The empty keyword occurs in every name: an enabled gate whose
    keywords hold it, as a string with a trailing or doubled comma gives,
    keeps every public callable attribute of the client. *)
Theorem empty_keyword_keeps_everything (self : t) (sdk : sdk_object)
    (cc : CrudControls.t) (c : category) (ws : list string)
    (ops : list AnySDKTool.t) (m : string) (a : attribute) :
  client self !! "client" = Some sdk ->
  crud_controls self = Some cc ->
  gate cc c = true ->
  keywords cc c = Some ws ->
  In "" ws ->
  _build_operations self = Return ops ->
  find_attr sdk m = Some a ->
  callable a = true ->
  PyString.startswith m "_" = false ->
  In m (map AnySDKTool.name ops).
Proof.
  intros Hh Hp Hg Hws Hw Hb Ha Hc Hs.
  apply (name_in_operations self sdk ops m Hh Hb). split.
  - apply public_names_iff. by exists a.
  - rewrite Hp. cbn [matched].
    assert (In c (classify cc m)) as Hin.
    { apply classify_iff. split; [done|]. exists ws, "". split_and!; [done..|].
      by exists "", "", m. }
    intros E. by rewrite E in Hin.
Qed.

Lemma empty_keyword_keeps_everything_witness :
  In "" (PyString.split "," "update,") /\
  In "create_widget"
    (map AnySDKTool.name
       [tool widget_handle "create_widget" "Create a widget.";
        tool widget_handle "get_widget" "Get a widget."]).
Proof.
  split; [right; left; reflexivity|].
  apply (empty_keyword_keeps_everything
           (wrapper widget_handle (Some trailing_comma_policy)) widget_sdk
           trailing_comma_policy Update ["update"; ""]
           [tool widget_handle "create_widget" "Create a widget.";
            tool widget_handle "get_widget" "Get a widget."]
           "create_widget" (method (Some "Create a widget.") noop)).
  - reflexivity.
  - reflexivity.
  - reflexivity.
  - reflexivity.
  - right. left. reflexivity.
  - vm_compute. reflexivity.
  - reflexivity.
  - reflexivity.
  - reflexivity.
Defined.

Lemma classify_gates_off (cc : CrudControls.t) (f : string) :
  all_gates_off cc = true -> classify cc f = [].
Proof.
  unfold all_gates_off, categories. cbn [forallb gate].
  rewrite !andb_true_iff, !negb_true_iff. intros (Hc & Hr & Hu & Hd & _).
  unfold classify, categories. cbn [List.filter gate].
  by rewrite Hc, Hr, Hu, Hd.
Qed.

Lemma tools_for_gates_off (self : t) (sdk : sdk_object) (cc : CrudControls.t)
    (names : list string) :
  crud_controls self = Some cc -> all_gates_off cc = true ->
  flat_map (tools_for self sdk) names = [].
Proof.
  intros Hp Hoff. induction names as [|f names IH]; [done|].
  cbn [flat_map]. rewrite IH, List.app_nil_r. unfold tools_for.
  rewrite Hp. cbn [matched]. rewrite classify_gates_off by done.
  destruct (find_attr sdk f) as [a|]; [|done]. by destruct (attr_doc a).
Qed.

(** X6.  A policy with its four gates off keeps nothing, whatever its
    keywords and whatever the client exposes. *)
Theorem gates_off_no_operations (self : t) (sdk : sdk_object)
    (cc : CrudControls.t) :
  client self !! "client" = Some sdk ->
  crud_controls self = Some cc ->
  all_gates_off cc = true ->
  (forall ops, _build_operations self = Return ops -> ops = []) /\
  (all_documented sdk = true -> _build_operations self = Return []).
Proof.
  intros Hh Hp Hoff. split.
  - intros ops Hb.
    destruct (build_operations_returns self sdk ops Hh Hb) as [_ ->].
    by eapply tools_for_gates_off.
  - intros Hdoc. rewrite (build_operations_total self sdk Hh Hdoc).
    by erewrite tools_for_gates_off.
Qed.

Lemma gates_off_no_operations_witness :
  _build_operations (wrapper widget_handle (Some closed_policy)) = Return [].
Proof.
  apply (proj2 (gates_off_no_operations
                  (wrapper widget_handle (Some closed_policy)) widget_sdk
                  closed_policy eq_refl eq_refl eq_refl)).
  reflexivity.
Defined.
End CatalogProperties.

(** ** Running a tool *)

Section RunProperties.
Import AnySDKTool.

Variable loads : string -> option pyval.
Variable dumps : pyval -> outcome string.

(** X7.  A tool taken from the catalog runs its method: given a mapping,
    [_run] calls the attribute of that name with exactly these keyword
    arguments, returns the text of its result, and lets its exceptions
    other than [AttributeError] through; the message for an invalid name
    is not what it answers. *)
Theorem catalog_operation_runs (w : AnySdkWrapper.t) (sdk : sdk_object)
    (ops : list t) (op : t) (kwargs : list (string * pyval)) :
  AnySdkWrapper.client w !! "client" = Some sdk ->
  AnySdkWrapper._build_operations w = Return ops ->
  In op ops ->
  exists a body,
    find_attr sdk (name op) = Some a /\ attr_call a = Some body /\
    (forall r text, body kwargs = Return r -> dumps r = Return text ->
       _run loads dumps op (PyDict kwargs) = Return text) /\
    (forall e, body kwargs = Raise e -> is_AttributeError e = false ->
       _run loads dumps op (PyDict kwargs) = Raise e).
Proof.
  intros Hh Hb Hin.
  destruct (tool_in_catalog w sdk ops op Hh Hb Hin)
    as (Hc & _ & a & body & Ha & Hbody & _).
  rewrite <- Hc in Hh. exists a, body. split_and!; [done..| |].
  - intros r text Hr Ht.
    rewrite (run_resolved loads dumps op (PyDict kwargs) sdk a Hh Ha).
    cbn [resolve_params call_kwargs]. by rewrite Hbody, Hr, bind_Return, Ht.
  - intros e He Hne.
    apply (run_propagates loads dumps op (PyDict kwargs) sdk a e Hh Ha); [|done].
    cbn [resolve_params call_kwargs]. by rewrite Hbody.
Qed.

(** X8.  When the mapping that carries the client has no entry
    ["client"], [_run] raises [KeyError]: the handler for an invalid name
    does not cover it. *)
Theorem run_without_client_entry (self : t) (tool_input : pyval) :
  client self !! "client" = None ->
  _run loads dumps self tool_input = Raise KeyError.
Proof. intros Hh. unfold _run, subscript. by rewrite Hh. Qed.

(** X9.  A string that decodes, but not to a mapping, is not turned into
    empty arguments the way an undecodable string is: when the name
    resolves, [_run] raises [TypeError]. *)
Theorem run_decoded_non_mapping (self : t) (s : string) (v : pyval)
    (sdk : sdk_object) (func : attribute) :
  client self !! "client" = Some sdk ->
  find_attr sdk (name self) = Some func ->
  loads s = Some v ->
  (forall d, v <> PyDict d) ->
  _run loads dumps self (PyStr s) = Raise TypeError.
Proof.
  intros Hh Hf Hl Hv.
  apply (run_propagates loads dumps self (PyStr s) sdk func TypeError Hh Hf);
    [|done].
  cbn [resolve_params]. rewrite Hl. destruct v; try done. by destruct (Hv d).
Qed.

(** X10.  A name that resolves to an attribute that is not callable
    makes [_run] raise [TypeError], whatever the input. *)
Theorem run_not_callable (self : t) (tool_input : pyval)
    (sdk : sdk_object) (func : attribute) :
  client self !! "client" = Some sdk ->
  find_attr sdk (name self) = Some func ->
  attr_call func = None ->
  _run loads dumps self tool_input = Raise TypeError.
Proof.
  intros Hh Hf Hc.
  apply (run_propagates loads dumps self tool_input sdk func TypeError Hh Hf);
    [|done].
  unfold call_kwargs. rewrite Hc. by destruct (resolve_params loads tool_input).
Qed.

(** X11.  [_run] never raises [AttributeError], wherever it comes from:
    the lookup of the name, the body of the method or the encoder. *)
Theorem run_never_raises_AttributeError (self : t) (tool_input : pyval) :
  _run loads dumps self tool_input <> Raise AttributeError.
Proof.
  unfold _run, try_except.
  destruct (_ ≫= _) as [text|e]; [done|]. by destruct e.
Qed.
End RunProperties.

Lemma catalog_operation_runs_witness :
  exists a body,
    find_attr echo_sdk "get_widget" = Some a /\ attr_call a = Some body /\
    (forall r text, body nested_arguments = Return r -> json_dumps r = Return text ->
       AnySDKTool._run Json.loads json_dumps
         (tool echo_handle "get_widget" "Get a widget.") (PyDict nested_arguments) =
       Return text) /\
    (forall e, body nested_arguments = Raise e -> is_AttributeError e = false ->
       AnySDKTool._run Json.loads json_dumps
         (tool echo_handle "get_widget" "Get a widget.") (PyDict nested_arguments) =
       Raise e).
Proof.
  apply (catalog_operation_runs Json.loads json_dumps
           (wrapper echo_handle (Some default_policy)) echo_sdk
           [tool echo_handle "get_widget" "Get a widget."]
           (tool echo_handle "get_widget" "Get a widget.") nested_arguments).
  - reflexivity.
  - vm_compute. reflexivity.
  - left. reflexivity.
Defined.

Lemma run_without_client_entry_witness :
  AnySDKTool._run Json.loads json_dumps (tool ∅ "get_widget" "Get a widget.")
    (PyDict []) = Raise KeyError.
Proof.
  apply (run_without_client_entry Json.loads json_dumps
           (tool ∅ "get_widget" "Get a widget.") (PyDict [])).
  reflexivity.
Defined.

Lemma run_decoded_non_mapping_witness :
  AnySDKTool._run Json.loads json_dumps
    (tool echo_handle "get_widget" "Get a widget.") (PyStr "[1, 2]") =
  Raise TypeError.
Proof.
  apply (run_decoded_non_mapping Json.loads json_dumps
           (tool echo_handle "get_widget" "Get a widget.") "[1, 2]"
           (PyList [PyInt 1; PyInt 2]) echo_sdk
           (method (Some "Get a widget.") (fun kwargs => Return (PyDict kwargs))));
    [reflexivity | reflexivity | reflexivity | discriminate].
Defined.

Lemma run_not_callable_witness :
  AnySDKTool._run Json.loads json_dumps
    (tool mixed_handle "region" "The region.") (PyDict []) = Raise TypeError.
Proof.
  apply (run_not_callable Json.loads json_dumps
           (tool mixed_handle "region" "The region.") (PyDict []) mixed_sdk
           {| attr_doc := Some "str(object) -> str"; attr_call := None |});
    reflexivity.
Defined.

(** ** The text of a result *)

Section TextProperties.
Import Json.

Variable encoder : pyval -> outcome string.

(** X12.  Arguments given as the JSON text of a mapping are the arguments
    given as that mapping: [_run] does the same on both. *)
Theorem encoded_arguments_as_mapping (self : AnySDKTool.t)
    (kwargs : list (string * pyval)) :
  well_formed (PyDict kwargs) = true ->
  json_native (PyDict kwargs) = true ->
  AnySDKTool._run loads encoder self (PyStr (dumps (PyDict kwargs))) =
  AnySDKTool._run loads encoder self (PyDict kwargs).
Proof.
  intros Hwf Hn. unfold AnySDKTool._run. cbn [AnySDKTool.resolve_params].
  by rewrite loads_dumps, stringify_native.
Qed.
End TextProperties.

Lemma encoded_arguments_as_mapping_witness :
  AnySDKTool._run Json.loads json_dumps
    (tool echo_handle "get_widget" "Get a widget.")
    (PyStr (Json.dumps (PyDict nested_arguments))) =
  AnySDKTool._run Json.loads json_dumps
    (tool echo_handle "get_widget" "Get a widget.") (PyDict nested_arguments).
Proof.
  apply (encoded_arguments_as_mapping json_dumps
           (tool echo_handle "get_widget" "Get a widget.") nested_arguments);
    reflexivity.
Defined.

Section EncoderProperties.
Import Json.

Lemma printable_app (s t : string) :
  printable (s +:+ t) = printable s && printable t.
Proof.
  induction s as [|c s IH]; [done|].
  rewrite string_app_cons. cbn [printable]. by rewrite IH, andb_assoc.
Qed.

Lemma printable_escape_char (c : ascii) : printable (escape_char c) = true.
Proof. destruct c as [[|] [|] [|] [|] [|] [|] [|] [|]]; reflexivity. Qed.

Lemma printable_escape (s : string) : printable (escape s) = true.
Proof.
  induction s as [|c s IH]; [done|].
  cbn [escape]. by rewrite printable_app, printable_escape_char, IH.
Qed.

Lemma printable_encode_string (s : string) : printable (encode_string s) = true.
Proof.
  unfold encode_string. cbn [printable].
  by rewrite printable_app, printable_escape.
Qed.

Lemma printable_uint (u : Decimal.uint) :
  printable (NilEmpty.string_of_uint u) = true.
Proof. induction u; cbn [NilEmpty.string_of_uint printable]; by rewrite ?IHu. Qed.

Lemma printable_encode_int (z : Z) : printable (encode_int z) = true.
Proof.
  unfold encode_int.
  destruct z as [|p|p]; cbn [Z.to_int NilZero.string_of_int]; [done|..];
    rewrite string_of_uint_to_uint; cbn [printable];
    by rewrite printable_uint.
Qed.

Lemma printable_join (items : list string) :
  Forall (fun x => printable x = true) items ->
  printable (join ", " items) = true.
Proof.
  induction 1 as [|x items Hx _ IH]; [done|].
  destruct items as [|y items]; [done|].
  rewrite join_cons_cons, !printable_app, Hx, IH. reflexivity.
Qed.

Lemma printable_dumps (v : pyval) : printable (dumps v) = true.
Proof.
  induction v as [| b | z | s | l IH | l IH | d IH | repr] using pyval_nested_ind;
    cbn [dumps].
  - done.
  - by destruct b.
  - apply printable_encode_int.
  - apply printable_encode_string.
  - rewrite !printable_app, printable_join; [done|].
    induction IH as [|x l Hx _ IHl]; by constructor.
  - rewrite !printable_app, printable_join; [done|].
    induction IH as [|x l Hx _ IHl]; by constructor.
  - rewrite !printable_app, printable_join; [done|].
    induction IH as [|[k x] d Hx _ IHd]; constructor; [|done].
    cbn [fst snd] in *.
    by rewrite !printable_app, printable_encode_string, Hx.
  - apply printable_encode_string.
Qed.

Lemma dumps_stringify (v : pyval) : dumps (stringify v) = dumps v.
Proof.
  induction v as [| b | z | s | l IH | l IH | d IH | repr] using pyval_nested_ind;
    cbn [dumps stringify]; try done.
  - assert (map dumps (map stringify l) = map dumps l) as ->; [|done].
    induction IH as [|x l Hx _ IHl]; [done|]. cbn [map]. by rewrite Hx, IHl.
  - assert (map dumps (map stringify l) = map dumps l) as ->; [|done].
    induction IH as [|x l Hx _ IHl]; [done|]. cbn [map]. by rewrite Hx, IHl.
  - assert (map member_text (map (fun kv => (fst kv, stringify (snd kv))) d) =
            map member_text d) as E.
    { induction IH as [|[k x] d Hx _ IHd]; [done|].
      cbn [map fst snd] in *. rewrite IHd. unfold member_text at 1 3.
      cbn [fst snd]. by rewrite Hx. }
    unfold member_text in E. by rewrite E.
Qed.

(** X13.  The text that [_run] returns for a result of the method is
    not empty and holds only printable ASCII characters, none of them a
    line break: every other character of a string is escaped. *)
Theorem run_text_printable (decoder : string -> option pyval)
    (self : AnySDKTool.t) (tool_input : pyval) (sdk : sdk_object)
    (func : attribute) (result : pyval) :
  AnySDKTool.client self !! "client" = Some sdk ->
  find_attr sdk (AnySDKTool.name self) = Some func ->
  AnySDKTool.call_kwargs func (AnySDKTool.resolve_params decoder tool_input) =
    Return result ->
  exists text,
    AnySDKTool._run decoder json_dumps self tool_input = Return text /\
    printable text = true /\ text <> "".
Proof.
  intros Hh Hf Hc. exists (dumps result).
  rewrite (run_resolved decoder json_dumps self tool_input sdk func Hh Hf), Hc.
  split_and!; [done | apply printable_dumps |].
  destruct (dumps_head result) as (c & r & -> & _). done.
Qed.

(** X14.  For a result made of [None], booleans, integers, strings,
    lists, tuples, dicts whose keys are strings, and objects of other
    classes: decoding the text of the result and encoding what comes out
    gives the same text again, also when the result holds tuples or
    objects that are not native to JSON. *)
Theorem result_text_is_stable (decoder : string -> option pyval)
    (self : AnySDKTool.t) (tool_input : pyval) (sdk : sdk_object)
    (func : attribute) (result : pyval) :
  AnySDKTool.client self !! "client" = Some sdk ->
  find_attr sdk (AnySDKTool.name self) = Some func ->
  AnySDKTool.call_kwargs func (AnySDKTool.resolve_params decoder tool_input) =
    Return result ->
  well_formed result = true ->
  exists text decoded,
    AnySDKTool._run decoder json_dumps self tool_input = Return text /\
    loads text = Some decoded /\
    json_dumps decoded = Return text.
Proof.
  intros Hh Hf Hc Hwf. exists (dumps result), (stringify result).
  rewrite (run_resolved decoder json_dumps self tool_input sdk func Hh Hf), Hc.
  split_and!; [done | by apply loads_dumps |].
  unfold json_dumps. by rewrite dumps_stringify.
Qed.
End EncoderProperties.

Lemma run_text_printable_witness :
  exists text,
    AnySDKTool._run Json.loads json_dumps
      (tool echo_handle "get_widget" "Get a widget.") (PyDict nested_arguments) =
      Return text /\
    printable text = true /\ text <> "".
Proof.
  apply (run_text_printable Json.loads
           (tool echo_handle "get_widget" "Get a widget.")
           (PyDict nested_arguments) echo_sdk
           (method (Some "Get a widget.") (fun kwargs => Return (PyDict kwargs)))
           (PyDict nested_arguments));
    reflexivity.
Defined.

Lemma result_text_is_stable_witness :
  exists text decoded,
    AnySDKTool._run Json.loads json_dumps
      (tool echo_handle "get_widget" "Get a widget.")
      (PyDict [("when", PyObj "2024-03-01 10:00:00")]) = Return text /\
    Json.loads text = Some decoded /\
    json_dumps decoded = Return text.
Proof.
  apply (result_text_is_stable Json.loads
           (tool echo_handle "get_widget" "Get a widget.")
           (PyDict [("when", PyObj "2024-03-01 10:00:00")]) echo_sdk
           (method (Some "Get a widget.") (fun kwargs => Return (PyDict kwargs)))
           (PyDict [("when", PyObj "2024-03-01 10:00:00")]));
    reflexivity.
Defined.

(** ** The validator *)

Section ValidatorProperties.
Import CrudControls.

Lemma gate_truthy (environ : gmap string string) (m : gmap string pyval)
    (k e : string) (d : bool) (x : pyval) :
  get_from_dict_or_env environ m k e (PyBool d) = Return x ->
  truthy x =
    match m !! k with Some v => truthy v | None => false end ||
    match environ !! e with Some (String _ _) => true | _ => false end || d.
Proof.
  unfold get_from_dict_or_env.
  destruct (m !! k) as [v|]; [destruct (truthy v) eqn:Hv|];
    [by intros [= <-] | ..];
    destruct (environ !! e) as [[|c t]|]; intros [= <-]; done.
Qed.

Lemma lookup_supplied (environ : gmap string string) (m : gmap string pyval)
    (k e : string) (d v : pyval) :
  m !! k = Some v -> truthy v = true ->
  get_from_dict_or_env environ m k e d = Return v.
Proof. intros Hm Hv. unfold get_from_dict_or_env. by rewrite Hm, Hv. Qed.

Lemma split_no_separator (sep : ascii) (s w : string) :
  In w (PyString.split sep s) -> PyString.contains (String sep "") w = false.
Proof.
  revert w. induction s as [|c s IH]; intros w; cbn [PyString.split].
  - by intros [<-|[]].
  - pose proof (split_nonempty sep s) as Hne.
    destruct (Ascii.eqb_spec c sep) as [->|Hc].
    + intros [<-|Hw]; [done | by apply IH].
    + destruct (PyString.split sep s) as [|w0 ws]; [done|].
      intros [<-|Hw]; [|apply IH; by right].
      cbn [PyString.contains PyString.startswith].
      destruct (Ascii.eqb_spec sep c) as [->|_]; [done|].
      cbn [orb]. apply IH. by left.
Qed.

(** X15.  Whatever the lookup of a field gives, a validation that returns
    has put a boolean in each of the four gates, and has left every key
    other than the eight fields as it was. *)
Theorem validation_gates_and_other_keys
    (lookup_field : gmap string pyval -> string -> string -> pyval -> outcome pyval)
    (values values' : gmap string pyval) :
  validate_environment lookup_field values = Return values' ->
  (forall key, In key gate_fields -> exists b, values' !! key = Some (PyBool b)) /\
  (forall key, ~ In key gate_fields -> ~ In key list_fields ->
     values' !! key = values !! key).
Proof.
  unfold validate_environment. intros H.
  repeat (apply bind_Return_inv in H as (? & ? & H)).
  repeat match goal with
         | E : split_comma _ = Return _ |- _ =>
             apply split_comma_Return in E as (? & -> & ->)
         end.
  injection H as <-. split.
  - intros key Hkey. unfold gate_fields in Hkey. simpl in Hkey.
    destruct Hkey as [<-|[<-|[<-|[<-|[]]]]]; eexists; by simplify_map_eq.
  - intros key Hg Hl. unfold gate_fields, list_fields in Hg, Hl.
    cbn [In] in Hg, Hl.
    rewrite !lookup_insert_ne; [done|intros <-; tauto..].
Qed.

(** X16.  With the lookup of a field that takes a false value as not
    supplied, a gate comes out on when the configuration holds a true
    value for it, or its environment variable is set and not empty, or its
    default is on, and off otherwise: a false value cannot switch a gate
    off, and [read], on by default, is on after every validation. *)
Theorem validation_resolves_gates (environ : gmap string string)
    (values values' : gmap string pyval) :
  validate_environment (get_from_dict_or_env environ) values = Return values' ->
  (forall key, In key gate_fields ->
     values' !! key = Some (PyBool (resolved_gate environ values key))) /\
  values' !! "read" = Some (PyBool true).
Proof.
  unfold validate_environment. intros H.
  repeat (apply bind_Return_inv in H as (? & ? & H)).
  repeat match goal with
         | E : split_comma _ = Return _ |- _ =>
             apply split_comma_Return in E as (? & -> & ->)
         end.
  repeat match goal with
         | E : get_from_dict_or_env _ _ _ _ (PyBool _) = Return _ |- _ =>
             apply gate_truthy in E; rewrite ?lookup_insert_ne in E by done
         end.
  injection H as <-. split.
  - intros key Hkey. unfold gate_fields in Hkey. simpl in Hkey.
    destruct Hkey as [<-|[<-|[<-|[<-|[]]]]]; simplify_map_eq;
      do 2 f_equal; unfold resolved_gate; cbn [gate_field_source String.eqb
        Ascii.eqb Bool.eqb fst snd]; congruence.
  - simplify_map_eq. do 2 f_equal.
    match goal with
    | E : truthy ?x = _ || _ || ANYSDK_CRUD_CONTROLS_READ |- truthy ?x = _ =>
        rewrite E
    end.
    unfold ANYSDK_CRUD_CONTROLS_READ. by rewrite orb_true_r.
Qed.

Lemma validation_gates_and_other_keys_witness :
  (forall key, In key gate_fields ->
     exists b, validated_defaults !! key = Some (PyBool b)) /\
  (forall key, ~ In key gate_fields -> ~ In key list_fields ->
     validated_defaults !! key = field_defaults !! key).
Proof.
  apply (validation_gates_and_other_keys (get_from_dict_or_env ∅)
           field_defaults validated_defaults).
  vm_compute. reflexivity.
Defined.

Lemma validation_resolves_gates_witness :
  (forall key, In key gate_fields ->
     validated_defaults !! key =
     Some (PyBool (resolved_gate ∅ read_off_config key))) /\
  validated_defaults !! "read" = Some (PyBool true).
Proof.
  apply (validation_resolves_gates ∅ read_off_config validated_defaults).
  vm_compute. reflexivity.
Defined.

(** X17.  The validator cannot be applied to what it returned: the list
    fields then hold lists, and splitting the first of them raises
    [AttributeError]. *)
Theorem validation_not_repeatable
    (lookup_field : gmap string pyval -> string -> string -> pyval -> outcome pyval)
    (environ : gmap string string) (values values' : gmap string pyval) :
  validate_environment lookup_field values = Return values' ->
  validate_environment (get_from_dict_or_env environ) values' =
    Raise AttributeError.
Proof.
  intros H.
  destruct (validate_environment_lists lookup_field values values' "create_list" H)
    as [s Hs]; [unfold list_fields; simpl; tauto|].
  pose proof (split_nonempty "," s) as Hne.
  destruct (PyString.split "," s) as [|w ws]; [done|]. cbn [map] in Hs.
  unfold validate_environment.
  destruct (lookup_gate environ values' "create" "ANYSDK_CRUD_CONTROLS_CREATE"
              ANYSDK_CRUD_CONTROLS_CREATE) as [g Hg].
  rewrite Hg, bind_Return. cbv zeta.
  rewrite (lookup_list environ _ "create_list" _ _ (PyStr w) (map PyStr ws))
    by (by rewrite lookup_insert_ne).
  reflexivity.
Qed.

Lemma validation_not_repeatable_witness :
  validate_environment (get_from_dict_or_env ∅) validated_defaults =
  Raise AttributeError.
Proof.
  apply (validation_not_repeatable (get_from_dict_or_env ∅) ∅ field_defaults).
  vm_compute. reflexivity.
Defined.

(** X18.  A keyword string that is supplied and not empty is split
    without loss: joining the keywords with commas gives the string back,
    so nothing is trimmed and no empty piece is dropped, and no keyword
    holds a comma. *)
Theorem override_split_without_loss (environ : gmap string string)
    (values values' : gmap string pyval) (key s0 : string) :
  validate_environment (get_from_dict_or_env environ) values = Return values' ->
  In key list_fields ->
  values !! key = Some (PyStr s0) ->
  s0 <> "" ->
  exists ws,
    values' !! key = Some (PyList (map PyStr ws)) /\
    Json.join "," ws = s0 /\
    forall w, In w ws -> PyString.contains "," w = false.
Proof.
  unfold validate_environment. intros H Hkey Hv Hne.
  assert (truthy (PyStr s0) = true) as Ht
    by (cbn; by destruct (String.eqb_spec s0 "")).
  repeat (apply bind_Return_inv in H as (? & ? & H)).
  repeat match goal with
         | E : split_comma _ = Return _ |- _ =>
             apply split_comma_Return in E as (? & -> & ->)
         end.
  injection H as <-. exists (PyString.split "," s0).
  unfold list_fields in Hkey. simpl in Hkey.
  destruct Hkey as [<-|[<-|[<-|[<-|[]]]]];
    match goal with
    | E : get_from_dict_or_env _ ?m ?k _ _ = Return (PyStr ?x)
      |- context [<[?k := PyList (map PyStr (PyString.split "," ?x))]> _] =>
        rewrite (lookup_supplied _ m k _ _ (PyStr s0)) in E
          by (rewrite ?lookup_insert_ne by done; done);
        injection E as <-
    end;
    (split_and!;
     [by simplify_map_eq | apply join_split | apply split_no_separator]).
Qed.

Lemma override_split_without_loss_witness :
  exists ws,
    validated_override !! "create_list" = Some (PyList (map PyStr ws)) /\
    Json.join "," ws = "make,add" /\
    forall w, In w ws -> PyString.contains "," w = false.
Proof.
  apply (override_split_without_loss ∅ string_override validated_override
           "create_list" "make,add").
  - vm_compute. reflexivity.
  - left. reflexivity.
  - reflexivity.
  - discriminate.
Defined.
End ValidatorProperties.
